(** * sql_chat: the question -> SQL -> result -> insight pipeline of
    [cli_oai.js], embedded function by function.

    Layout:
    - [JS]       the ECMAScript string built-ins the program calls
                 ([trim], [startsWith], [includes], [replace], [substring],
                 [join]) over sequences of UTF-16 code units;
    - the program itself: [generateSQL], [executeQuery],
      [generateResponse], [formatResultTable], [exportToCSV] and the body
      of the [promptUser] callback, written in a small monad that reads
      the replies of the outside world, records the console, network,
      database and file-system calls of one turn, and may throw;
    - [Demo]     one concrete host and a few concrete worlds;
    - the properties of the pipeline. *)

From Stdlib Require Import Strings.String Strings.Ascii Numbers.DecimalString.
From Stdlib Require Import List NArith Arith Bool Lia QArith.
Import ListNotations.

Local Open Scope nat_scope.
Local Open Scope list_scope.

(* ===================================================================== *)
(** ** ECMAScript strings *)
(* ===================================================================== *)

Module JS.

(** A JavaScript string is a finite sequence of 16-bit code units. *)
Definition char := N.
Definition str := list char.

(** Source-text literals. *)
Definition lit (s : string) : str :=
  map N_of_ascii (list_ascii_of_string s).

Definition dquote : str := [34%N].
Definition backtick : char := 96%N.

Definition eqb_str (a b : str) : bool :=
  if list_eq_dec N.eq_dec a b then true else false.

(** [!s] for a string: only the empty string is falsy. *)
Definition truthy (s : str) : bool :=
  match s with [] => false | _ :: _ => true end.

(** WhiteSpace and LineTerminator code points, all in the BMP
    (ECMA-262, 12.2 and 12.3): what [String.prototype.trim] removes. *)
Definition isWhiteSpace (c : char) : bool :=
  ((9 <=? c) && (c <=? 13) || (c =? 32) || (c =? 160) || (c =? 5760)
   || (8192 <=? c) && (c <=? 8202) || (c =? 8232) || (c =? 8233)
   || (c =? 8239) || (c =? 8287) || (c =? 12288) || (c =? 65279))%N.

Fixpoint trimStart (s : str) : str :=
  match s with
  | [] => []
  | c :: r => if isWhiteSpace c then trimStart r else s
  end.

Definition trimEnd (s : str) : str := rev (trimStart (rev s)).

Definition trim (s : str) : str := trimEnd (trimStart s).

(** [s.startsWith(p)] *)
Fixpoint startsWith (s p : str) {struct p} : bool :=
  match p, s with
  | [], _ => true
  | _ :: _, [] => false
  | a :: p', b :: s' => (a =? b)%N && startsWith s' p'
  end.

(** [s.includes(p)] *)
Fixpoint includes (s p : str) : bool :=
  startsWith s p ||
  match s with
  | [] => false
  | _ :: r => includes r p
  end.

(** [s.replace(p, r)] with a string pattern: only the first occurrence is
    replaced.  (The program's replacement text is always empty, so the
    dollar patterns of the replacement never arise.) *)
Fixpoint replace (s p r : str) : str :=
  if startsWith s p then r ++ skipn (length p) s
  else match s with
       | [] => []
       | c :: s' => c :: replace s' p r
       end.

(** [s.replace(/p/g, r)] for a regular expression that is a literal,
    non-empty text [p]: matches are taken left to right and do not overlap.
    [skip] counts the code units of the current match still to be dropped. *)
Fixpoint replaceAll_from (skip : nat) (s p r : str) : str :=
  match s with
  | [] => []
  | c :: s' =>
      match skip with
      | S k => replaceAll_from k s' p r
      | O => if startsWith s p
             then r ++ replaceAll_from (length p - 1) s' p r
             else c :: replaceAll_from 0 s' p r
      end
  end.

Definition replaceAll (s p r : str) : str := replaceAll_from 0 s p r.

(** [s.substring(0, n)] *)
Definition substring0 (s : str) (n : nat) : str := firstn n s.

(** [xs.join(sep)] on an array of strings *)
Fixpoint join (xs : list str) (sep : str) : str :=
  match xs with
  | [] => []
  | [x] => x
  | x :: rest => x ++ sep ++ join rest sep
  end.

(** [String(n)] for a non-negative integer such as [array.length]. *)
Definition ofNat (n : nat) : str :=
  lit (NilZero.string_of_uint (Nat.to_uint n)).

(** The ASCII fragment of [toLowerCase]: A-Z to a-z, every other code
    unit unchanged.  It agrees with the built-in on ASCII text. *)
Definition asciiLowerChar (c : char) : char :=
  if ((65 <=? c) && (c <=? 90))%N then (c + 32)%N else c.
Definition asciiLower (s : str) : str := map asciiLowerChar s.

End JS.

Import JS.

(* ===================================================================== *)
(** ** Values, rows and the host environment *)
(* ===================================================================== *)

Section Values.

(** [number] stands for IEEE-754 doubles and [object] for the non-null
    values whose [typeof] is ['object'] (arrays, JSON documents, dates,
    buffers); both are left to the host. *)
Variables number object : Type.

Inductive value : Type :=
| VNull
| VUndefined
| VBoolean (b : bool)
| VNumber (n : number)
| VString (s : str)
| VObject (o : object).

(** A result row is an object keyed by column name. *)
Definition row : Type := list (str * value).

(** [row[col]] over the row's own properties: a missing property reads
    as [undefined].  (The names every object inherits are listed in
    [Object_prototype_names] below; a statement about a missing column
    excludes them.) *)
Fixpoint get (r : row) (col : str) : value :=
  match r with
  | [] => VUndefined
  | (k, v) :: r' => if eqb_str k col then v else get r' col
  end.

End Values.

Arguments VNull {number object}.
Arguments VUndefined {number object}.
Arguments VBoolean {number object} b.
Arguments VNumber {number object} n.
Arguments VString {number object} s.
Arguments VObject {number object} o.
Arguments get {number object} r col.

(** A thrown [Error]. *)
Record JsError : Type := { message : str; stack : str }.

(** The [cli-table3] table under construction. *)
Record Table : Type := { head : list str; body : list (list str) }.

Inductive style : Type :=
  red | green | blue | cyan | yellow | bold | magenta_bold.

(** Numbers read from the driver or from [length]: [result.rowCount] is a
    number or [null], and a property that was never set is [undefined]. *)
Inductive count : Type :=
  | CUndefined
  | CNull
  | CNum (n : nat).

Definition String_count (c : count) : str :=
  match c with
  | CUndefined => lit "undefined"
  | CNull => lit "null"
  | CNum n => ofNat n
  end.

(** What the program takes from the JavaScript runtime and its libraries
    without defining it. *)
Record Host : Type := {
  number : Type;
  object : Type;
  (** [s.toLowerCase()] *)
  toLowerCase : str -> str;
  (** [String(n)] for a number *)
  Number_toString : number -> str;
  (** [JSON.stringify(o)] *)
  JSON_stringify : object -> str;
  (** [JSON.stringify(rows, null, 2)] *)
  JSON_stringify_rows : list (row number object) -> str;
  (** [table.toString()] of cli-table3 *)
  Table_toString : Table -> str;
  (** [chalk.<style>(s)] *)
  chalk : style -> str -> str;
  (** the [TypeError] raised by reading the named property of [null] or
      [undefined] *)
  TypeError_reading : str -> JsError;
  (** [process.env.CHAIN] *)
  env_CHAIN : option str
}.

(* ===================================================================== *)
(** ** Constants of the program *)
(* ===================================================================== *)

(** [process.env.CHAIN || 'base'] *)
Definition CHAIN (host : Host) : str :=
  match env_CHAIN host with
  | Some c => if truthy c then c else lit "base"
  | None => lit "base"
  end.

Definition OPENAI_MODEL : str := lit "gpt-4o-mini".

Definition SCHEMA_INFO : str :=
  lit "
The database schema consists of the following tables:
1. **blocks_base**: Stores blockchain block details.
   - Columns: id, hash, parentHash, timestamp, number, gasLimit, gasUsed, transactionsRoot, receiptsRoot, logsBloom, difficulty, baseFeePerGas, withdrawalsRoot, blobGasUsed, excessBlobGas, parentBeaconBlockRoot, sha3Uncles, miner, stateRoot, nonce, mixHash, extraData, createdAt, updatedAt.
   - Unique Index: (hash, id).
2. **deposit_erc20_base**: Stores ERC-20 token deposit logs.
   - Columns: id, address, topics, data, block_hash, block_number, transaction_hash, transaction_index, log_index, removed, from, to, value.
   - Unique Index: (transaction_hash, from, id).
3. **pools_base**: Stores details of token pools.
   - Columns: id, pool_address, token_a_address, token_b_address, token_a_details, token_b_details, created_at, updated_at.
   - Unique Index: (id).
4. **tokens_base**: Stores token details.
   - Columns: id, token_address, name, symbol, decimals, total_supply, price, created_at, updated_at.
   - Unique Index: (token_address).
5. **token_trades_base**: Stores trade records of tokens.
   - Columns: id, token_address, name, symbol, decimals, total_supply, price, created_at, updated_at, pool_address, transaction_hash.
   - Unique Index: (token_address, transaction_hash, id).
6. **transactions_base**: Stores blockchain transaction details.
   - Columns: id, type, chain_id, nonce, gas_price, gas, to, value, input, r, s, v, hash, block_hash, block_number, transaction_index, from.
   - Index: (hash, from, id).
7. **transfer_erc20_base**: Stores ERC-20 token transfer logs.
   - Columns: id, contract_address, topics, data, block_hash, block_number, transaction_hash, transaction_index, log_index, removed, from, to, value.
   - Unique Index: (transaction_hash, from, id).
8. **transfer_erc721_base**: Stores ERC-721 (NFT) transfer logs.
   - Columns: id, contract_address, topics, data, block_hash, block_number, transaction_hash, transaction_index, log_index, removed, from_address, to_address, token_id.
   - Unique Index: (transaction_hash, from_address, id).
9. **users**: Stores user details.
   - Columns: id, email, password, project_name, limit, created_at, updated_at.
   - Unique Constraint: (email, id).
10. **users_base**: Stores blockchain user balances.
    - Columns: id, address, balances, created_at, updated_at.
    - Index: (address, id).
11. **withdrawal_erc20_base**: Stores ERC-20 withdrawal logs.
    - Columns: id, address, topics, data, block_hash, block_number, transaction_hash, transaction_index, log_index, removed, from, to, value.
    - Unique Index: (transaction_hash, from, id).
".

Definition BLOCKCHAIN_CONTEXT : str :=
  lit "
Common blockchain terms and concepts:
- Address: A 42-character hexadecimal string starting with '0x' that represents an account or contract
- Hash: A 66-character hexadecimal string starting with '0x' that uniquely identifies blocks or transactions
- Token: A fungible asset on the blockchain (ERC-20 standard)
- NFT: A non-fungible token on the blockchain (ERC-721 standard)
- Block: A container for transactions, each with a unique hash and number
- Transaction: A transfer of value or data between addresses
- Gas: Cost to execute operations on the blockchain
- Base Chain: An Ethereum Layer 2 blockchain built with the OP Stack
- In this database, 'value' columns for tokens often use wei (1 ETH = 10^18 wei)
- Timestamps are typically stored in Unix epoch time (seconds since Jan 1, 1970)
".

Definition EXAMPLE_QUERIES : str :=
  lit "
" ++ lit "Example SQL queries for common blockchain questions:

-- Get the 10 most recent blocks
SELECT hash, number, timestamp, gasUsed, gasLimit, miner
FROM blocks_base
ORDER BY CAST(number AS BIGINT) DESC
LIMIT 10;

-- Get the top 10 tokens by price
SELECT token_address, name, symbol, decimals, price
FROM tokens_base
WHERE price IS NOT NULL
ORDER BY CAST(price AS DECIMAL) DESC
LIMIT 10;

-- Get the top 10 addresses by number of transactions
SELECT " ++ dquote ++ lit "from" ++ dquote ++ lit " as address, COUNT(" ++ lit "*" ++ lit ") as tx_count
FROM transactions_base
GROUP BY " ++ dquote ++ lit "from" ++ dquote ++ lit "
ORDER BY tx_count DESC
LIMIT 10;

-- Get the total value of ERC-20 transfers for each token
SELECT contract_address, SUM(CAST(value AS DECIMAL)) as total_value
FROM transfer_erc20_base
GROUP BY contract_address
ORDER BY total_value DESC
LIMIT 10;

-- Get average gas used per block over time (by day)
SELECT 
    TO_TIMESTAMP(CAST(timestamp AS BIGINT)) as block_date,
    AVG(CAST(gasUsed AS DECIMAL)) as avg_gas_used
FROM blocks_base
GROUP BY TO_CHAR(TO_TIMESTAMP(CAST(timestamp AS BIGINT)), 'YYYY-MM-DD')
ORDER BY block_date;

-- Get all ERC-721 (NFT) transfers for a specific token contract
SELECT from_address, to_address, token_id, transaction_hash
FROM transfer_erc721_base
WHERE contract_address = '0x123abc...'
ORDER BY block_number DESC
LIMIT 20;
".

(* ===================================================================== *)
(** ** Remote calls of one turn *)
(* ===================================================================== *)

Inductive role : Type := system | user.

Record chat_message : Type := { msg_role : role; content : str }.

Record chat_request : Type := {
  model : str;
  messages : list chat_message;
  temperature : Q
}.

(** The reply of the chat endpoint, as far as the program reads it:
    [response.choices[0].message.content]. *)
Inductive chat_response : Type :=
  | NoChoice                          (* [choices[0]] is undefined *)
  | Choice (content : option str)     (* [content] is a string or [null] *)
  .

(** How an awaited call ends. *)
Inductive outcome (A : Type) : Type :=
  | Resolves (a : A)
  | Rejects (e : JsError).

Arguments Resolves {A} a.
Arguments Rejects {A} e.

Record field : Type := { name : str }.

Section Program.

Context (host : Host).

Abbreviation row := (row (number host) (object host)).
Abbreviation value := (value (number host) (object host)).

(** The driver's [Result]. *)
Record pg_result : Type := {
  pg_rows : option (list row);
  pg_fields : list field;
  pg_rowCount : count
}.

(** The replies of the outside world during one turn.  A reply depends
    on the request only; the two chat requests of a turn differ, so this
    loses nothing. *)
Record World : Type := {
  chat_completions_create : chat_request -> outcome chat_response;
  client_query : str -> outcome pg_result;
  client_end : outcome unit;
  rl_answer : str -> str;
  csvWriter_writeRecords :
    str -> list (str * str) -> list row -> outcome unit;
  Date_toISOString : str
}.

(** The calls the turn makes, in order. *)
Inductive event : Type :=
| ConsoleLog (s : str)
| ConsoleError (s : str)
| ChatCreate (req : chat_request)
| ClientQuery (sql : str)
| ClientEnd
| RlQuestion (q : str)
| RlClose
| WriteRecords (path : str) (header : list (str * str)) (records : list row)
| PromptUser   (* [promptUser()]: the prompt loop is re-armed *)
.

(** Computations: read the world, log the calls, return or throw. *)
Definition M (A : Type) : Type := World -> outcome A * list event.

Definition ret {A} (a : A) : M A := fun _ => (Resolves a, []).

Definition throw {A} (e : JsError) : M A := fun _ => (Rejects e, []).

Definition bind {A B} (m : M A) (k : A -> M B) : M B :=
  fun w =>
    match m w with
    | (Resolves a, t) => let (r, t') := k a w in (r, t ++ t')
    | (Rejects e, t) => (Rejects e, t)
    end.

(** [try { m } catch (e) { h e }] *)
Definition try_catch {A} (m : M A) (h : JsError -> M A) : M A :=
  fun w =>
    match m w with
    | (Resolves a, t) => (Resolves a, t)
    | (Rejects e, t) => let (r, t') := h e w in (r, t ++ t')
    end.

Definition emit (e : event) : M unit := fun _ => (Resolves tt, [e]).

Definition call {A} (e : event) (reply : World -> outcome A) : M A :=
  fun w => (reply w, [e]).

Notation "x <- c1 ;; c2" := (bind c1 (fun x => c2))
  (at level 61, c1 at next level, right associativity).
Notation "c1 ;; c2" := (bind c1 (fun _ => c2))
  (at level 61, right associativity).

Definition console_log (s : str) : M unit := emit (ConsoleLog s).
Definition console_error (s : str) : M unit := emit (ConsoleError s).
(** [promptUser()], that is [rl.question] for the next prompt, on an
    interface that is open; [promptUserOn] below does without that. *)
Definition promptUser : M unit := emit PromptUser.

Definition create (req : chat_request) : M chat_response :=
  call (ChatCreate req) (fun w => chat_completions_create w req).

Definition query (sql : str) : M pg_result :=
  call (ClientQuery sql) (fun w => client_query w sql).

(** [rl.question(q, callback)] on an interface that is open, with an
    operator who answers; [rl_question] below does without that. *)
Definition question (q : str) : M str :=
  call (RlQuestion q) (fun w => Resolves (rl_answer w q)).

Definition writeRecords (path : str) (header : list (str * str))
    (records : list row) : M unit :=
  call (WriteRecords path header records)
       (fun w => csvWriter_writeRecords w path header records).

(** [new Date().toISOString()]: reads the clock, calls nothing. *)
Definition new_Date_toISOString : M str :=
  fun w => (Resolves (Date_toISOString w), []).

(** [${x}] and [console.log(x)] for a string that may be [null]. *)
Definition orNull (x : option str) : str :=
  match x with Some s => s | None => lit "null" end.

(** [if (x)] for a string that may be [null]. *)
Definition isSet (x : option str) : bool :=
  match x with Some s => truthy s | None => false end.

(* ------------------------------------------------------------------- *)
(** *** executeQuery *)

Record QueryResult : Type := {
  rows : option (list row);
  error : option str;
  columnNames : option (list str);
  rowCount : count;
  affectedRows : count;
  qr_message : option str
}.

Definition executeQuery (sql : str) : M QueryResult :=
  try_catch
    (result <- query sql ;;
     match pg_rows result with
     | Some rs =>
         ret {| rows := Some rs;
                error := None;
                columnNames := Some (map name (pg_fields result));
                rowCount := pg_rowCount result;
                affectedRows := CUndefined;
                qr_message := None |}
     | None =>
         ret {| rows := Some [];
                error := None;
                columnNames := None;
                rowCount := CUndefined;
                affectedRows := pg_rowCount result;
                qr_message :=
                  Some (lit "Query executed successfully. Rows affected: "
                        ++ String_count (pg_rowCount result)) |}
     end)
    (fun e =>
       ret {| rows := None;
              error := Some (message e);
              columnNames := None;
              rowCount := CUndefined;
              affectedRows := CUndefined;
              qr_message := None |}).

(* ------------------------------------------------------------------- *)
(** *** generateSQL *)

Definition fence : str := [backtick; backtick; backtick].
Definition fence_sql : str := fence ++ lit "sql".

Definition generation_systemMessage (schemaInfo chain : str) : str :=
  lit "You are an expert SQL generator for a blockchain database. 
Your task is to convert natural language questions into PostgreSQL queries.

"
  ++ schemaInfo
  ++ lit "

"
  ++ BLOCKCHAIN_CONTEXT
  ++ lit "

"
  ++ EXAMPLE_QUERIES
  ++ lit "

Important SQL writing guidelines:
1. Always generate valid PostgreSQL syntax
2. Use table names with the suffix '_"
  ++ chain
  ++ lit "' unless referring to the 'users' table
3. Handle quoting properly for reserved words like " ++ dquote ++ lit "from" ++ dquote ++ lit " and " ++ dquote ++ lit "to" ++ dquote ++ lit " in table columns
4. Cast numeric strings to appropriate types (DECIMAL, BIGINT) when needed for math operations
5. Use TO_TIMESTAMP() for timestamp conversions when needed
6. Format timestamps in human-readable format when returning them
7. Use proper JOIN syntax when combining tables
8. Add LIMIT clauses (usually LIMIT 10 or 20) unless asked for all records
9. Add proper WHERE clauses to filter data based on the user's question
10. NEVER use column names that don't exist in the tables

OUTPUT FORMAT: Return ONLY the SQL query, no explanations or markdown formatting.".

(** Lines 228-235: the text kept from the model's reply. *)
Definition stripFences (content : str) : str :=
  let sql := trim content in
  if startsWith sql fence_sql then
    trim (replace (replace sql fence_sql []) fence [])
  else if startsWith sql fence then
    trim (replaceAll sql fence [])
  else sql.

Record GeneratedSQL : Type := { sql : option str; sql_error : option str }.

Definition generation_request (prompt schemaInfo chain model : str)
  : chat_request :=
  {| model := model;
     messages :=
       [ {| msg_role := system;
            content := generation_systemMessage schemaInfo chain |};
         {| msg_role := user;
            content := lit "Generate PostgreSQL query for: " ++ prompt |} ];
     temperature := 1 # 10 |}.

Definition generateSQL (prompt schemaInfo chain model : str)
  : M GeneratedSQL :=
  try_catch
    (response <- create (generation_request prompt schemaInfo chain model) ;;
     match response with
     | NoChoice => throw (TypeError_reading host (lit "message"))
     | Choice None => throw (TypeError_reading host (lit "trim"))
     | Choice (Some content) =>
         ret {| sql := Some (stripFences content); sql_error := None |}
     end)
    (fun e =>
       ret {| sql := None;
              sql_error := Some (lit "Error generating SQL: " ++ message e) |}).

(* ------------------------------------------------------------------- *)
(** *** generateResponse *)

Definition summary_systemMessage : str :=
  lit "You are an expert blockchain data analyst who provides clear, concise explanations.
Your task is to explain query results from a blockchain database in natural language.
Focus on providing insights and interpreting the data for the user.

Include relevant statistics like:
- Key metrics and totals
- Interesting patterns or outliers
- Time-based trends if applicable
- Relationships between different data points

Make your response conversational and informative for non-technical users.
If no results were found, explain why there might be no data and suggest alternatives.

OUTPUT FORMAT: A conversational paragraph or two explaining the results, plus 2-3 bullet points highlighting key insights.
DO NOT include the SQL query in your response unless it's specifically requested.".

Definition resultSample (results : QueryResult) : str :=
  match rows results with
  | Some rs =>
      if 0 <? length rs then JSON_stringify_rows host (firstn 5 rs)
      else lit "No results found"
  | None => lit "No results found"
  end.

Definition summary_rowCount (results : QueryResult) : nat :=
  match rows results with Some rs => length rs | None => 0 end.

Definition summary_colNames (results : QueryResult) : str :=
  match columnNames results with
  | Some cols => join cols (lit ", ")
  | None => []
  end.

Definition summary_userMessage (prompt sql : str) (results : QueryResult)
  : str :=
  let resultSample := resultSample results in
  let rowCount := summary_rowCount results in
  let colNames := summary_colNames results in
  lit "User question: "
  ++ prompt
  ++ lit "
SQL query used: "
  ++ sql
  ++ lit "
Number of rows returned: "
  ++ ofNat rowCount
  ++ lit "
Column names: "
  ++ colNames
  ++ lit "
Sample of results (first 5 rows):
"
  ++ resultSample
  ++ lit "

Please provide a natural language explanation of these results, focusing on insights that answer the user's question.".

Record Insight : Type := { response : option str; response_error : option str }.

Definition summary_request (prompt sql : str) (results : QueryResult)
    (model : str) : chat_request :=
  {| model := model;
     messages :=
       [ {| msg_role := system; content := summary_systemMessage |};
         {| msg_role := user;
            content := summary_userMessage prompt sql results |} ];
     temperature := 7 # 10 |}.

Definition generateResponse (prompt sql : str) (results : QueryResult)
    (model : str) : M Insight :=
  try_catch
    (response <- create (summary_request prompt sql results model) ;;
     match response with
     | NoChoice => throw (TypeError_reading host (lit "message"))
     | Choice c => ret {| response := c; response_error := None |}
     end)
    (fun e =>
       ret {| response := None;
              response_error :=
                Some (lit "Error generating response: " ++ message e) |}).

(* ------------------------------------------------------------------- *)
(** *** formatResultTable *)

(** [String(v).substring(0, 30) + (String(v).length > 30 ? '...' : '')] *)
Definition clip (s : str) : str :=
  substring0 s 30 ++ (if 30 <? length s then lit "..." else []).

Definition formatCell (v : value) : str :=
  match v with
  | VNull => lit "NULL"
  | VObject o => JSON_stringify host o
  | VUndefined => clip (lit "undefined")
  | VBoolean b => clip (if b then lit "true" else lit "false")
  | VNumber n => clip (Number_toString host n)
  | VString s => clip s
  end.

Definition rowValues (columnNames : list str) (r : row) : list str :=
  map (fun col => formatCell (get r col)) columnNames.

Definition new_Table (columnNames : list str) : Table :=
  {| head := columnNames; body := [] |}.

Definition push (t : Table) (cells : list str) : Table :=
  {| head := head t; body := body t ++ [cells] |}.

(** The table as it stands when [toString] is called. *)
Definition resultTable (rs : list row) (columnNames : list str) : Table :=
  fold_left (fun table r => push table (rowValues columnNames r))
            (firstn 10 rs) (new_Table columnNames).

Definition formatResultTable (rows : option (list row))
    (columnNames : option (list str)) : str :=
  match rows, columnNames with
  | Some rs, Some cols =>
      if length rs =? 0 then lit "No results"
      else Table_toString host (resultTable rs cols)
  | _, _ => lit "No results"
  end.

(* ------------------------------------------------------------------- *)
(** *** exportToCSV *)

(** [!rows || rows.length === 0] *)
Definition noRows (rows : option (list row)) : bool :=
  match rows with
  | None => true
  | Some rs => length rs =? 0
  end.

(** [iso.replace(/[:.]/g, '-')] *)
Definition dashed (iso : str) : str :=
  map (fun c => if ((c =? 58) || (c =? 46))%N then 45%N else c) iso.

Definition exportToCSV (rows : option (list row))
    (columnNames : option (list str)) : M unit :=
  if noRows rows then
    console_log (chalk host yellow (lit "No data to export"))
  else
    iso <- new_Date_toISOString ;;
    let timestamp := dashed iso in
    let filename := lit "query_results_" ++ timestamp ++ lit ".csv" in
    match columnNames with
    | None => throw (TypeError_reading host (lit "map"))
    | Some cols =>
        let header := map (fun column => (column, column)) cols in
        let records := match rows with Some rs => rs | None => [] end in
        try_catch
          (writeRecords filename header records ;;
           console_log
             (chalk host green (lit "Results exported to " ++ filename)))
          (fun e =>
             console_error
               (chalk host red
                  (lit "Failed to export results: " ++ message e)))
    end.

(* ------------------------------------------------------------------- *)
(** *** The [promptUser] callback: one turn *)

Definition errorType (msg : str) : str :=
  if includes (toLowerCase host msg) (lit "syntax")
  then lit "Syntax error"
  else lit "Database error".

(** [if (answer.toLowerCase() === 'y') await exportToCSV(...)] *)
Definition exportStep (queryResult : QueryResult) (answer : str) : M unit :=
  if eqb_str (toLowerCase host answer) (lit "y")
  then exportToCSV (rows queryResult) (columnNames queryResult)
  else ret tt.

(** The second callback, run when the operator has answered the export
    question.  Nothing catches what it throws. *)
Definition onAnswer (prompt sql : str) (queryResult : QueryResult)
    (answer : str) : M unit :=
  exportStep queryResult answer ;;
  console_log (chalk host cyan (lit "Generating insights...")) ;;
  r <- generateResponse prompt sql queryResult OPENAI_MODEL ;;
  (if isSet (response_error r) then
     console_error
       (chalk host red
          (lit "Failed to generate insights: " ++ orNull (response_error r)))
   else
     console_log (chalk host magenta_bold (lit "
Insights")) ;;
     console_log (orNull (response r))) ;;
  promptUser.

(** The first callback up to the point where it returns or asks the
    export question; [Some] carries what the second callback closes
    over, together with the operator's answer. *)
Definition onQuestion (prompt : str)
  : M (option (str * QueryResult * str)) :=
  if eqb_str (toLowerCase host prompt) (lit "exit")
     || eqb_str (toLowerCase host prompt) (lit "quit") then
    call ClientEnd client_end ;;
    emit RlClose ;;
    console_log
      (chalk host cyan (lit "
Thank you for using Blockchain Database Chat CLI!")) ;;
    ret None
  else if negb (truthy (trim prompt)) then
    promptUser ;;
    ret None
  else
    console_log (chalk host cyan (lit "
Generating SQL query...")) ;;
    g <- generateSQL prompt SCHEMA_INFO (CHAIN host) OPENAI_MODEL ;;
    if isSet (sql_error g) then
      console_error
        (chalk host red
           (lit "Failed to generate SQL: " ++ orNull (sql_error g))) ;;
      promptUser ;;
      ret None
    else
      let sql := orNull (sql g) in
      console_log (chalk host cyan (lit "Generated SQL:")) ;;
      console_log (chalk host blue sql) ;;
      console_log [] ;;
      console_log (chalk host cyan (lit "Executing query...")) ;;
      queryResult <- executeQuery sql ;;
      if isSet (error queryResult) then
        console_error
          (chalk host red
             (lit "Failed to execute query: " ++ orNull (error queryResult))) ;;
        console_log
          (chalk host cyan
             (lit "Error type: " ++ errorType (orNull (error queryResult)))) ;;
        promptUser ;;
        ret None
      else if noRows (rows queryResult) then
        console_log (chalk host cyan (lit "The query returned no results.")) ;;
        promptUser ;;
        ret None
      else
        console_log
          (chalk host green
             (lit "Query returned " ++ String_count (rowCount queryResult)
              ++ lit " rows.")) ;;
        console_log (chalk host cyan (lit "Results preview:")) ;;
        console_log
          (formatResultTable (rows queryResult) (columnNames queryResult)) ;;
        console_log [] ;;
        answer <- question
          (chalk host cyan
             (lit "Would you like to export these results to CSV? (y/n): ")) ;;
        ret (Some (sql, queryResult, answer)).

(** [catch (error)] of the first callback. *)
Definition onError (e : JsError) : M (option (str * QueryResult * str)) :=
  console_error (chalk host red (lit "An error occurred: " ++ message e)) ;;
  console_error (stack e) ;;
  promptUser ;;
  ret None.

(** One turn: the operator has typed [prompt]. *)
Definition turn (prompt : str) : M unit :=
  pending <- try_catch (onQuestion prompt) onError ;;
  match pending with
  | Some (sql, queryResult, answer) => onAnswer prompt sql queryResult answer
  | None => ret tt
  end.

(** The calls made by a computation in a given world, and its outcome. *)
Definition trace {A} (m : M A) (w : World) : list event := snd (m w).
Definition result {A} (m : M A) (w : World) : outcome A := fst (m w).

(** The prompt is neither an exit command nor blank: the turn goes on to
    generate SQL. *)
Definition isQuestion (prompt : str) : bool :=
  negb (eqb_str (toLowerCase host prompt) (lit "exit")
        || eqb_str (toLowerCase host prompt) (lit "quit"))
  && truthy (trim prompt).

End Program.

(** The text has no backtick at all. *)
Definition noBacktick (s : str) : Prop := ~ In backtick s.

(** Guideline 2 of the generation prompt, for partition key [chain]. *)
Definition tableSuffixRule (chain : str) : str :=
  lit "Use table names with the suffix '_" ++ chain
  ++ lit "' unless referring to the 'users' table".

Arguments ret {host A} a.
Arguments throw {host A} e.
Arguments trace {host A} m w.
Arguments result {host A} m w.
Arguments pg_rows {host} p.
Arguments pg_fields {host} p.
Arguments pg_rowCount {host} p.
Arguments chat_completions_create {host} w req.
Arguments client_query {host} w sql.
Arguments client_end {host} w.
Arguments rl_answer {host} w q.
Arguments csvWriter_writeRecords {host} w path header records.
Arguments Date_toISOString {host} w.
Arguments rows {host} q.
Arguments error {host} q.
Arguments columnNames {host} q.
Arguments rowCount {host} q.
Arguments affectedRows {host} q.
Arguments qr_message {host} q.
Arguments ConsoleLog {host} s.
Arguments ConsoleError {host} s.
Arguments ChatCreate {host} req.
Arguments ClientQuery {host} sql.
Arguments ClientEnd {host}.
Arguments RlQuestion {host} q.
Arguments RlClose {host}.
Arguments WriteRecords {host} path header records.
Arguments PromptUser {host}.
Arguments lit s : simpl never.

(* ===================================================================== *)
(** ** Start-up: the module top level, [connectToDatabase],
       [displayExampleQuestions] and [main] *)
(* ===================================================================== *)

(** The environment variables the program reads. *)
Record Env : Type := {
  env_DB_HOST : option str;
  env_DB_PORT : option str;
  env_DB_NAME : option str;
  env_DB_USER : option str;
  env_DB_PASSWORD : option str;
  env_OPENAI_API_KEY : option str
}.

(** [process.env.X || fallback] *)
Definition orDefault (x : option str) (fallback : str) : str :=
  match x with
  | Some s => if truthy s then s else fallback
  | None => fallback
  end.

Definition DB_HOST (env : Env) : str :=
  orDefault (env_DB_HOST env) (lit "aws-0-us-east-1.pooler.supabase.com").
Definition DB_PORT (env : Env) : str :=
  orDefault (env_DB_PORT env) (lit "6543").
Definition DB_NAME (env : Env) : str :=
  orDefault (env_DB_NAME env) (lit "postgres").
Definition DB_USER (env : Env) : str :=
  orDefault (env_DB_USER env) (lit "postgres.cbxagjoxdgzpfknkpswj").
Definition DB_PASSWORD (env : Env) : str :=
  orDefault (env_DB_PASSWORD env) (lit "amit").
Definition OPENAI_API_KEY (env : Env) : str :=
  orDefault (env_OPENAI_API_KEY env) [].

(** The options handed to [new pg.Client]. *)
Record pg_config : Type := {
  cfg_host : str;
  cfg_port : str;
  cfg_database : str;
  cfg_user : str;
  cfg_password : str
}.

(** How the constructors and the connection attempt end. *)
Record BootWorld : Type := {
  OpenAI_new : outcome unit;
  pg_Client_new : outcome unit;
  client_connect : outcome unit
}.

(** The calls made while the program starts. *)
Inductive boot_event : Type :=
| BootLog (s : str)
| BootError (s : str)
| NewOpenAI (apiKey : str)
| NewPgClient (config : pg_config)
| ClientConnect
| CreateInterface
| AskQuestion (q : str)   (* [rl.question(q, callback)]: the prompt is shown *)
| ProcessExit (code : nat).

(** A start-up step goes on with a value or ends the process. *)
Inductive progress (A : Type) : Type :=
| Continues (a : A)
| Exits (code : nat).

Arguments Continues {A} a.
Arguments Exits {A} code.

Definition Boot (A : Type) : Type := BootWorld -> progress A * list boot_event.

Definition boot_ret {A} (a : A) : Boot A := fun _ => (Continues a, []).

Definition boot_bind {A B} (m : Boot A) (k : A -> Boot B) : Boot B :=
  fun w =>
    match m w with
    | (Continues a, t) => let (r, t') := k a w in (r, t ++ t')
    | (Exits code, t) => (Exits code, t)
    end.

Definition boot_emit (e : boot_event) : Boot unit :=
  fun _ => (Continues tt, [e]).

(** [process.exit(code)] *)
Definition process_exit {A} (code : nat) : Boot A :=
  fun _ => (Exits code, [ProcessExit code]).

(** A call that may throw: its outcome is handed to the caller's
    [try]/[catch]. *)
Definition boot_call (e : boot_event) (reply : BootWorld -> outcome unit)
  : Boot (outcome unit) :=
  fun w => (Continues (reply w), [e]).

Section Startup.

Context (host : Host) (env : Env).

Notation "x <- c1 ;; c2" := (boot_bind c1 (fun x => c2))
  (at level 61, c1 at next level, right associativity).
Notation "c1 ;; c2" := (boot_bind c1 (fun _ => c2))
  (at level 61, right associativity).

Definition connection_config : pg_config :=
  {| cfg_host := DB_HOST env;
     cfg_port := DB_PORT env;
     cfg_database := DB_NAME env;
     cfg_user := DB_USER env;
     cfg_password := DB_PASSWORD env |}.

(** [connectToDatabase]: [true] stands for the connected client, [false]
    for [null]. *)
Definition connectToDatabase : Boot bool :=
  made <- boot_call (NewPgClient connection_config) pg_Client_new ;;
  match made with
  | Rejects e =>
      boot_emit
        (BootError
           (chalk host red (lit "Database connection error: " ++ message e))) ;;
      boot_ret false
  | Resolves _ =>
      connected <- boot_call ClientConnect client_connect ;;
      match connected with
      | Rejects e =>
          boot_emit
            (BootError
               (chalk host red
                  (lit "Database connection error: " ++ message e))) ;;
          boot_ret false
      | Resolves _ => boot_ret true
      end
  end.

Definition examples : list str :=
  [ lit "What are the 10 most recent blocks?";
    lit "Show me the top 5 transactions by value";
    lit "Which wallets have the most token transfers?";
    lit "What's the average gas used per block?";
    lit "Show me all ERC-20 transfers with value over 1000";
    lit "Which tokens have the highest price?";
    lit "Show me the total transaction count per day";
    lit "Which addresses have the most NFTs?";
    lit "How many unique tokens are there in the database?";
    lit "What's the distribution of transaction values?";
    lit "Which miners have produced the most blocks?";
    lit "What's the average number of transactions per block?";
    lit "Which token has the highest total transfer value?";
    lit "Show me the most active wallet addresses" ].

(** [xs.forEach((x, i) => f(x, i))], from index [i] on. *)
Fixpoint forEach (xs : list str) (i : nat) (f : str -> nat -> Boot unit)
  : Boot unit :=
  match xs with
  | [] => boot_ret tt
  | x :: rest => f x i ;; forEach rest (S i) f
  end.

Definition displayExampleQuestions : Boot unit :=
  boot_emit
    (BootLog (chalk host magenta_bold (lit "
Example questions you can ask:"))) ;;
  forEach examples 0
    (fun example i =>
       boot_emit (BootLog (ofNat (i + 1) ++ lit ". " ++ example))) ;;
  boot_emit (BootLog []).

(** The text of the prompt shown by [promptUser]. *)
Definition promptText : str :=
  chalk host bold (lit "Ask a question (or type 'exit' to quit): ").

Definition main : Boot unit :=
  boot_emit
    (BootLog (chalk host magenta_bold (lit "
Blockchain Database Chat CLI"))) ;;
  boot_emit
    (BootLog (lit "Ask questions about blockchain data in natural language, and get insights!
")) ;;
  openai <- boot_call (NewOpenAI (OPENAI_API_KEY env)) OpenAI_new ;;
  match openai with
  | Rejects e =>
      boot_emit
        (BootError
           (chalk host red
              (lit "Error initializing OpenAI client: " ++ message e))) ;;
      process_exit 1
  | Resolves _ =>
      boot_emit (BootLog (chalk host cyan (lit "Connecting to database..."))) ;;
      dbClient <- connectToDatabase ;;
      if negb dbClient then
        boot_emit
          (BootError
             (chalk host red
                (lit "Failed to connect to database. Please check your credentials."))) ;;
        process_exit 1
      else
        boot_emit
          (BootLog
             (chalk host green (lit "Successfully connected to database!
"))) ;;
        displayExampleQuestions ;;
        boot_emit CreateInterface ;;
        boot_emit (AskQuestion promptText)
  end.

(** The module from its first statement: the key check, then [main()]. *)
Definition program : Boot unit :=
  if negb (truthy (OPENAI_API_KEY env)) then
    boot_emit
      (BootError
         (chalk host red
            (lit "Error: OpenAI API key is required. Please set the OPENAI_API_KEY environment variable."))) ;;
    process_exit 1
  else main.

End Startup.

(* ===================================================================== *)
(** ** Vocabulary for statements about traces *)
(* ===================================================================== *)

Section TraceVocabulary.

Context {host : Host}.

(** The event is a call to a remote service or a file write. *)
Definition isRemote (e : event host) : bool :=
  match e with
  | ChatCreate _ | ClientQuery _ | WriteRecords _ _ _ => true
  | _ => false
  end.

(** The event re-arms the prompt. *)
Definition isPromptUser (e : event host) : bool :=
  match e with
  | PromptUser => true
  | _ => false
  end.

(** The prompt is one of the two exit commands. *)
Definition isExit (prompt : str) : bool :=
  eqb_str (toLowerCase host prompt) (lit "exit")
  || eqb_str (toLowerCase host prompt) (lit "quit").

End TraceVocabulary.

Arguments isExit host prompt : clear implicits.

Definition isAskQuestion (e : boot_event) : bool :=
  match e with
  | AskQuestion _ => true
  | _ => false
  end.

(** The awaited call did not throw. *)
Definition resolved {A} (o : outcome A) : bool :=
  match o with
  | Resolves _ => true
  | Rejects _ => false
  end.

(* ===================================================================== *)
(** ** The turn on a readline interface that may have been closed *)
(* ===================================================================== *)

(** [rl.question] throws on an interface that has been closed (end of
    piped input, Ctrl-D), and the callback of a question that was shown
    never runs when the interface is closed before a line arrives.  The
    callbacks above take the interface to be open and the operator to
    answer; the ones below take the state of the interface at each of the
    three places where a turn calls [rl.question]. *)
Inductive rl_state : Type :=
| RlOpen
| RlClosed (e : JsError).   (* what [rl.question] throws *)

Record Readline : Type := {
  (** at the one [rl.question] call in the [try] block of the first
      callback: [promptUser()] or the export question *)
  rl_in_try : rl_state;
  (** the operator answers the export question *)
  rl_answers : bool;
  (** at [promptUser()] in the [catch] block of the first callback *)
  rl_in_catch : rl_state;
  (** at [promptUser()], the last statement of the second callback *)
  rl_at_end : rl_state
}.

Section ProgramOnReadline.

Context (host : Host) (rl : Readline).

Notation "x <- c1 ;; c2" := (bind host c1 (fun x => c2))
  (at level 61, c1 at next level, right associativity).
Notation "c1 ;; c2" := (bind host c1 (fun _ => c2))
  (at level 61, right associativity).

(** [rl.question(...)] with the interface in state [s]; [shown] is the
    event of the question being put. *)
Definition rl_question (s : rl_state) (shown : event host) : M host unit :=
  match s with
  | RlOpen => emit host shown
  | RlClosed e => throw e
  end.

Definition promptUserOn (s : rl_state) : M host unit :=
  rl_question s PromptUser.

Definition onAnswerOn (prompt sql : str) (queryResult : QueryResult host)
    (answer : str) : M host unit :=
  exportStep host queryResult answer ;;
  console_log host (chalk host cyan (lit "Generating insights...")) ;;
  r <- generateResponse host prompt sql queryResult OPENAI_MODEL ;;
  (if isSet (response_error r) then
     console_error host
       (chalk host red
          (lit "Failed to generate insights: " ++ orNull (response_error r)))
   else
     console_log host (chalk host magenta_bold (lit "
Insights")) ;;
     console_log host (orNull (response r))) ;;
  promptUserOn (rl_at_end rl).

Definition onQuestionOn (prompt : str)
  : M host (option (str * QueryResult host * str)) :=
  if eqb_str (toLowerCase host prompt) (lit "exit")
     || eqb_str (toLowerCase host prompt) (lit "quit") then
    call host ClientEnd client_end ;;
    emit host RlClose ;;
    console_log host
      (chalk host cyan (lit "
Thank you for using Blockchain Database Chat CLI!")) ;;
    ret None
  else if negb (truthy (trim prompt)) then
    promptUserOn (rl_in_try rl) ;;
    ret None
  else
    console_log host (chalk host cyan (lit "
Generating SQL query...")) ;;
    g <- generateSQL host prompt SCHEMA_INFO (CHAIN host) OPENAI_MODEL ;;
    if isSet (sql_error g) then
      console_error host
        (chalk host red
           (lit "Failed to generate SQL: " ++ orNull (sql_error g))) ;;
      promptUserOn (rl_in_try rl) ;;
      ret None
    else
      let sql := orNull (sql g) in
      console_log host (chalk host cyan (lit "Generated SQL:")) ;;
      console_log host (chalk host blue sql) ;;
      console_log host [] ;;
      console_log host (chalk host cyan (lit "Executing query...")) ;;
      queryResult <- executeQuery host sql ;;
      if isSet (error queryResult) then
        console_error host
          (chalk host red
             (lit "Failed to execute query: " ++ orNull (error queryResult))) ;;
        console_log host
          (chalk host cyan
             (lit "Error type: "
              ++ errorType host (orNull (error queryResult)))) ;;
        promptUserOn (rl_in_try rl) ;;
        ret None
      else if noRows host (rows queryResult) then
        console_log host
          (chalk host cyan (lit "The query returned no results.")) ;;
        promptUserOn (rl_in_try rl) ;;
        ret None
      else
        console_log host
          (chalk host green
             (lit "Query returned " ++ String_count (rowCount queryResult)
              ++ lit " rows.")) ;;
        console_log host (chalk host cyan (lit "Results preview:")) ;;
        console_log host
          (formatResultTable host (rows queryResult)
             (columnNames queryResult)) ;;
        console_log host [] ;;
        rl_question (rl_in_try rl)
          (RlQuestion
             (chalk host cyan
                (lit "Would you like to export these results to CSV? (y/n): "))) ;;
        if rl_answers rl then
          fun w =>
            (Resolves
               (Some
                  (sql, queryResult,
                   rl_answer w
                     (chalk host cyan
                        (lit "Would you like to export these results to CSV? (y/n): ")))),
             [])
        else ret None.

Definition onErrorOn (e : JsError)
  : M host (option (str * QueryResult host * str)) :=
  console_error host
    (chalk host red (lit "An error occurred: " ++ message e)) ;;
  console_error host (stack e) ;;
  promptUserOn (rl_in_catch rl) ;;
  ret None.

(** One turn on the interface [rl]. *)
Definition turnOn (prompt : str) : M host unit :=
  pending <- try_catch host (onQuestionOn prompt) onErrorOn ;;
  match pending with
  | Some (sql, queryResult, answer) =>
      onAnswerOn prompt sql queryResult answer
  | None => ret tt
  end.

(** The interface is open at every call and the operator answers. *)
Definition staysOpen : Prop :=
  rl_in_try rl = RlOpen /\ rl_answers rl = true
  /\ rl_in_catch rl = RlOpen /\ rl_at_end rl = RlOpen.

End ProgramOnReadline.

(* ===================================================================== *)
(** ** Names every object inherits *)
(* ===================================================================== *)

(** The property names of [Object.prototype] (ECMA-262, 20.1.3 and
    B.2.2): [row[col]] finds them on a row that has no column of that
    name.  [get] reads the row's own properties only. *)
Definition Object_prototype_names : list str :=
  [ lit "constructor"; lit "hasOwnProperty"; lit "isPrototypeOf";
    lit "propertyIsEnumerable"; lit "toLocaleString"; lit "toString";
    lit "valueOf"; lit "__proto__"; lit "__defineGetter__";
    lit "__defineSetter__"; lit "__lookupGetter__"; lit "__lookupSetter__" ].

Definition isInherited (col : str) : bool :=
  existsb (eqb_str col) Object_prototype_names.

(* ===================================================================== *)
(** ** A concrete host and concrete worlds, for running the program *)
(* ===================================================================== *)

Module Demo.

(** Objects are carried as their JSON text, numbers as naturals, colours
    are switched off, and a table prints one line per row. *)
Definition printValue (v : value nat str) : str :=
  match v with
  | VNull => lit "null"
  | VUndefined => lit "undefined"
  | VBoolean true => lit "true"
  | VBoolean false => lit "false"
  | VNumber n => ofNat n
  | VString s => dquote ++ s ++ dquote
  | VObject o => o
  end.

Definition printRow (r : row nat str) : str :=
  lit "{" ++
  join (map (fun kv => dquote ++ fst kv ++ dquote ++ lit ": " ++ printValue (snd kv)) r)
       (lit ", ")
  ++ lit "}".

Definition host : Host :=
  {| number := nat;
     object := str;
     toLowerCase := asciiLower;
     Number_toString := ofNat;
     JSON_stringify := fun o => o;
     JSON_stringify_rows := fun rs => lit "[" ++ join (map printRow rs) (lit ", ") ++ lit "]";
     Table_toString := fun t => join (map (fun cells => join cells (lit " | ")) (head t :: body t)) [10%N];
     chalk := fun _ s => s;
     TypeError_reading := fun p =>
       {| message := lit "Cannot read properties of null (reading '" ++ p ++ lit "')";
          stack := lit "TypeError" |};
     env_CHAIN := None |}.

(** A world fixed by the replies to the generation call, the query, the
    export question, the file write and the summary call.  The two chat
    calls are told apart by their decoding temperature. *)
Definition world (generation : outcome chat_response)
    (db : outcome (pg_result host)) (answer : str)
    (write : outcome unit) (summary : outcome chat_response) : World host :=
  Build_World host
    (fun req =>
       if Qeq_bool (temperature req) (1 # 10) then generation else summary)
    (fun _ => db)
    (Resolves tt)
    (fun _ => answer)
    (fun _ _ _ => write)
    (lit "2024-05-01T10:20:30.456Z").

Definition failure (msg : str) : JsError :=
  {| message := msg; stack := lit "Error: " ++ msg |}.

Definition says (content : str) : outcome chat_response :=
  Resolves (Choice (Some content)).

(** Three rows of two columns. *)
Definition threeRows : pg_result host :=
  Build_pg_result host
    (Some
       [ [ (lit "hash", VString (lit "0xaa")); (lit "number", VNumber 3) ];
         [ (lit "hash", VString (lit "0xbb")); (lit "number", VNumber 2) ];
         [ (lit "hash", VString (lit "0xcc")); (lit "number", VNull) ] ])
    [ {| name := lit "hash" |}; {| name := lit "number" |} ]
    (CNum 3).

Definition noRowsAtAll : pg_result host :=
  Build_pg_result host (Some []) [ {| name := lit "hash" |} ] (CNum 0).

Definition question1 : str := lit "What are the 10 most recent blocks?".

Definition select1 : str :=
  lit "SELECT hash FROM blocks_base ORDER BY number DESC LIMIT 10".

(** A reply that wraps the query in prose and a tagged code block. *)
Definition proseThenFence : str :=
  lit "Here is the query:
```sql
SELECT hash FROM blocks_base LIMIT 10;
```".

(** A reply that is one tagged code block. *)
Definition fencedSql : str :=
  lit "```sql
SELECT hash FROM blocks_base LIMIT 10;
```".

(** A reply that is one untagged code block. *)
Definition fencedPlain : str :=
  lit "```
SELECT hash FROM blocks_base LIMIT 10;
```".

(** The endpoint answers the generation call with [raw]; the query then
    returns three rows, the operator declines the export and the summary
    call succeeds. *)
Definition replying (raw : str) : World host :=
  world (says raw) (Resolves threeRows) (lit "n") (Resolves tt)
        (says (lit "Three blocks were found.")).


(** The query fails with a syntax error. *)
Definition syntaxError : World host :=
  world (says select1)
        (Rejects (failure (lit "ERROR: syntax error at or near SELECT")))
        (lit "n") (Resolves tt) (says (lit "Nothing to say.")).

(** The query fails and the driver's error carries an empty message. *)
Definition emptyMessage : World host :=
  world (says select1) (Rejects (failure [])) (lit "n") (Resolves tt)
        (says (lit "Nothing to say.")).

(** The query succeeds with no rows. *)
Definition emptyTable : World host :=
  world (says select1) (Resolves noRowsAtAll) (lit "y") (Resolves tt)
        (says (lit "Nothing to say.")).

(** The query returns three rows, the operator exports them, and the
    summary call is rejected. *)
Definition summaryDown : World host :=
  world (says select1) (Resolves threeRows) (lit "y") (Resolves tt)
        (Rejects (failure (lit "503 Service Unavailable"))).

(** A row with a JSON document of 44 code units and a long text. *)
Definition wideRow : row nat str :=
  [ (lit "token_a_details",
     VObject (lit "{" ++ dquote ++ lit "symbol" ++ dquote ++ lit ":"
              ++ dquote ++ lit "WETH" ++ dquote ++ lit ","
              ++ dquote ++ lit "name" ++ dquote ++ lit ":"
              ++ dquote ++ lit "Wrapped Ether" ++ dquote ++ lit "}"));
    (lit "pool_address",
     VString (lit "0x4200000000000000000000000000000000000006")) ].

Definition wideResult : pg_result host :=
  Build_pg_result host (Some [wideRow])
    [ {| name := lit "token_a_details" |}; {| name := lit "pool_address" |} ]
    (CNum 1).

(** The operator types an exit command while the connection cannot be
    ended. *)
Definition exitRefused : World host :=
  Build_World host
    (fun _ => says (lit "unused"))
    (fun _ => Resolves threeRows)
    (Rejects (failure (lit "Connection terminated unexpectedly")))
    (fun _ => lit "n")
    (fun _ _ _ => Resolves tt)
    (lit "2024-05-01T10:20:30.456Z").

(** The query returns three rows, the operator exports them, and the file
    cannot be written. *)
Definition diskFull : World host :=
  world (says select1) (Resolves threeRows) (lit "Y")
        (Rejects (failure (lit "ENOSPC: no space left on device")))
        (says (lit "Three blocks were found.")).

(** The query returns a row whose field list names a column the row does
    not have. *)
Definition strayColumn : list (row nat str) * list str :=
  ([ [ (lit "hash", VString (lit "0xaa")) ] ], [ lit "hash"; lit "miner" ]).

(** An environment with an API key and nothing else, and one without. *)
Definition keyOnly : Env :=
  {| env_DB_HOST := None;
     env_DB_PORT := None;
     env_DB_NAME := None;
     env_DB_USER := None;
     env_DB_PASSWORD := None;
     env_OPENAI_API_KEY := Some (lit "sk-test") |}.

Definition emptyKey : Env :=
  {| env_DB_HOST := Some (lit "localhost");
     env_DB_PORT := Some (lit "5432");
     env_DB_NAME := None;
     env_DB_USER := None;
     env_DB_PASSWORD := None;
     env_OPENAI_API_KEY := Some [] |}.

(** Everything starts. *)
Definition bootFine : BootWorld :=
  {| OpenAI_new := Resolves tt;
     pg_Client_new := Resolves tt;
     client_connect := Resolves tt |}.

(** The database refuses the connection. *)
Definition bootNoDatabase : BootWorld :=
  {| OpenAI_new := Resolves tt;
     pg_Client_new := Resolves tt;
     client_connect := Rejects (failure (lit "connect ECONNREFUSED 127.0.0.1:5432")) |}.


(** A tagged code block with a back-quoted identifier in it. *)
Definition fencedBackquoted : str :=
  lit "```sql
SELECT `from` FROM transactions_base LIMIT 10;
```".

(** A tagged code block that is never closed. *)
Definition fencedUnclosed : str :=
  lit "```sql
SELECT hash FROM blocks_base LIMIT 10;".

(** The interface is open throughout and the operator answers. *)
Definition openInterface : Readline :=
  {| rl_in_try := RlOpen;
     rl_answers := true;
     rl_in_catch := RlOpen;
     rl_at_end := RlOpen |}.

(** The input ends after the export question was put. *)
Definition noAnswer : Readline :=
  {| rl_in_try := RlOpen;
     rl_answers := false;
     rl_in_catch := RlClosed (failure (lit "readline was closed"));
     rl_at_end := RlClosed (failure (lit "readline was closed")) |}.

(** The input has ended while the summary was awaited. *)
Definition closedAtEnd : Readline :=
  {| rl_in_try := RlOpen;
     rl_answers := true;
     rl_in_catch := RlClosed (failure (lit "readline was closed"));
     rl_at_end := RlClosed (failure (lit "readline was closed")) |}.

End Demo.

(* ===================================================================== *)
(** ** Facts about the string built-ins *)
(* ===================================================================== *)

Section StringFacts.

Lemma startsWith_app (p r : str) : startsWith (p ++ r) p = true.
Proof.
  induction p as [|a p IH]; simpl; [reflexivity|].
  now rewrite N.eqb_refl.
Qed.

Lemma startsWith_split (s p : str) :
  startsWith s p = true -> s = p ++ skipn (length p) s.
Proof.
  revert s; induction p as [|a p IH]; intros s H; [reflexivity|].
  destruct s as [|b s]; simpl in H; [discriminate|].
  apply andb_true_iff in H as [Hab H].
  apply N.eqb_eq in Hab; subst b.
  simpl. f_equal. now apply IH.
Qed.

Lemma includes_app (a s b : str) : includes (a ++ s ++ b) s = true.
Proof.
  induction a as [|c a IH].
  - simpl. destruct (s ++ b) eqn:E; simpl; rewrite <- ?E;
      rewrite startsWith_app; reflexivity.
  - simpl. rewrite IH. apply orb_true_r.
Qed.

Lemma includes_split (s p : str) :
  includes s p = true -> exists a b, s = a ++ p ++ b.
Proof.
  induction s as [|c s IH]; simpl; intros H.
  - rewrite orb_false_r in H. exists [], []. destruct p; [reflexivity|discriminate].
  - apply orb_true_iff in H as [H|H].
    + exists [], (skipn (length p) (c :: s)). now apply startsWith_split.
    + destruct (IH H) as (a & b & ->). now exists (c :: a), b.
Qed.

(** A text that has no occurrence of [p] has none in any of its parts. *)
Lemma includes_part (a s b p : str) :
  includes (a ++ s ++ b) p = false -> includes s p = false.
Proof.
  intros H. destruct (includes s p) eqn:E; [|reflexivity].
  destruct (includes_split _ _ E) as (u & v & ->).
  rewrite <- H. symmetry.
  replace (a ++ (u ++ p ++ v) ++ b) with ((a ++ u) ++ p ++ (v ++ b))
    by (rewrite <- !app_assoc; reflexivity).
  apply includes_app.
Qed.

Lemma trimStart_suffix (s : str) : exists a, s = a ++ trimStart s.
Proof.
  induction s as [|c s [a IH]]; simpl.
  - now exists [].
  - destruct (isWhiteSpace c).
    + exists (c :: a). simpl. now f_equal.
    + now exists [].
Qed.

Lemma trimEnd_prefix (s : str) : exists b, s = trimEnd s ++ b.
Proof.
  unfold trimEnd. destruct (trimStart_suffix (rev s)) as [a H].
  exists (rev a). rewrite <- rev_app_distr, <- H. symmetry; apply rev_involutive.
Qed.

(** [trim] only removes code units at both ends. *)
Lemma trim_part (s : str) : exists a b, s = a ++ trim s ++ b.
Proof.
  unfold trim. destruct (trimStart_suffix s) as [a Ha].
  destruct (trimEnd_prefix (trimStart s)) as [b Hb].
  exists a, b. now rewrite <- Hb.
Qed.

Lemma includes_trim_false (s p : str) :
  includes s p = false -> includes (trim s) p = false.
Proof.
  intros H. destruct (trim_part s) as (a & b & E).
  rewrite E in H. exact (includes_part _ _ _ _ H).
Qed.

End StringFacts.

(* ===================================================================== *)
(** ** Fence stripping *)
(* ===================================================================== *)

Section Fences.

(** The two equations of the global replacement of the fence. *)
Lemma replaceAll_fence_hit (s : str) :
  replaceAll (backtick :: backtick :: backtick :: s) fence [] =
  replaceAll s fence [].
Proof.
  unfold replaceAll. cbn. reflexivity.
Qed.

Lemma replaceAll_fence_miss (c : char) (s : str) :
  startsWith (c :: s) fence = false ->
  replaceAll (c :: s) fence [] = c :: replaceAll s fence [].
Proof.
  intros H. unfold replaceAll.
  change (replaceAll_from 0 (c :: s) fence [])
    with (if startsWith (c :: s) fence
          then [] ++ replaceAll_from (length fence - 1) s fence []
          else c :: replaceAll_from 0 s fence []).
  now rewrite H.
Qed.

Lemma startsWith_fence_inv (s : str) :
  startsWith s fence = true ->
  exists s', s = backtick :: backtick :: backtick :: s'.
Proof.
  intros H. apply startsWith_split in H. now exists (skipn 3 s).
Qed.

(** Reading one code unit of a pattern that opens with a backtick. *)
Lemma startsWith_backtick (c : char) (s p : str) :
  startsWith (c :: s) (backtick :: p) = (c =? backtick)%N && startsWith s p.
Proof. simpl. now rewrite N.eqb_sym. Qed.

Lemma startsWith_nil (s : str) : startsWith s [] = true.
Proof. now destruct s. Qed.

Ltac backticks :=
  repeat match goal with
    | H : context [startsWith (_ :: _) (backtick :: _)] |- _ =>
        rewrite startsWith_backtick in H
    | |- context [startsWith (_ :: _) (backtick :: _)] =>
        rewrite startsWith_backtick
    | H : context [startsWith _ []] |- _ => rewrite startsWith_nil in H
    | |- context [startsWith _ []] => rewrite startsWith_nil
    end.

(** What is left of a text that opens with fewer than [n] backticks opens
    with fewer than [n] backticks, for [n] = 1 and 2. *)
Lemma replaceAll_head1 (s : str) :
  startsWith s [backtick] = false ->
  startsWith (replaceAll s fence []) [backtick] = false.
Proof.
  destruct s as [|c s]; [reflexivity|]. intros H.
  assert (E : (c =? backtick)%N = false)
    by (backticks; now rewrite andb_true_r in H).
  rewrite replaceAll_fence_miss by (unfold fence; backticks; now rewrite E).
  backticks. now rewrite E.
Qed.

Lemma replaceAll_head2 (s : str) :
  startsWith s [backtick; backtick] = false ->
  startsWith (replaceAll s fence []) [backtick; backtick] = false.
Proof.
  destruct s as [|c s]; [reflexivity|]. intros H.
  rewrite startsWith_backtick in H.
  destruct (c =? backtick)%N eqn:E.
  - simpl in H.
    rewrite replaceAll_fence_miss.
    + rewrite startsWith_backtick, E. simpl. now apply replaceAll_head1.
    + unfold fence. rewrite startsWith_backtick, E. simpl.
      destruct s as [|d s]; [reflexivity|].
      backticks. rewrite andb_true_r in H. now rewrite H.
  - rewrite replaceAll_fence_miss
      by (unfold fence; rewrite startsWith_backtick; now rewrite E).
    rewrite startsWith_backtick. now rewrite E.
Qed.

Lemma replaceAll_fence_free_len (n : nat) (s : str) :
  length s <= n -> includes (replaceAll s fence []) fence = false.
Proof.
  revert s; induction n as [|n IH]; intros s Hlen.
  - destruct s; [reflexivity|simpl in Hlen; lia].
  - destruct s as [|c s]; [reflexivity|].
    destruct (startsWith (c :: s) fence) eqn:E.
    + destruct (startsWith_fence_inv _ E) as [s' Es'].
      rewrite Es', replaceAll_fence_hit. apply IH.
      rewrite Es' in Hlen. simpl in Hlen. lia.
    + rewrite (replaceAll_fence_miss _ _ E).
      change (includes (c :: replaceAll s fence []) fence)
        with (startsWith (c :: replaceAll s fence []) fence
              || includes (replaceAll s fence []) fence).
      rewrite IH by (simpl in Hlen; lia). rewrite orb_false_r.
      unfold fence in E |- *. rewrite startsWith_backtick in E |- *.
      destruct (c =? backtick)%N; [|reflexivity].
      simpl andb in E |- *. now apply replaceAll_head2.
Qed.

(** Removing every fence leaves no fence behind. *)
Lemma replaceAll_fence_free (s : str) :
  includes (replaceAll s fence []) fence = false.
Proof. apply (replaceAll_fence_free_len (length s)). lia. Qed.

Lemma includes_noBacktick (body tail : str) :
  noBacktick body ->
  includes (body ++ tail) fence = includes tail fence.
Proof.
  unfold noBacktick. induction body as [|c body IH]; intros H; [reflexivity|].
  change (includes ((c :: body) ++ tail) fence)
    with (startsWith (c :: body ++ tail) fence || includes (body ++ tail) fence).
  rewrite IH by (intros F; apply H; now right).
  replace (startsWith (c :: body ++ tail) fence) with false; [reflexivity|].
  unfold fence. rewrite startsWith_backtick.
  destruct (c =? backtick)%N eqn:E; [|reflexivity].
  apply N.eqb_eq in E. exfalso. apply H. now left.
Qed.

Lemma replace_noBacktick (body tail : str) :
  noBacktick body ->
  replace (body ++ fence ++ tail) fence [] = body ++ tail.
Proof.
  unfold noBacktick. induction body as [|c body IH]; intros H.
  - reflexivity.
  - change (replace ((c :: body) ++ fence ++ tail) fence [])
      with (if startsWith (c :: body ++ fence ++ tail) fence
            then [] ++ skipn (length fence) (c :: body ++ fence ++ tail)
            else c :: replace (body ++ fence ++ tail) fence []).
    replace (startsWith (c :: body ++ fence ++ tail) fence) with false.
    + rewrite IH by (intros F; apply H; now right). reflexivity.
    + unfold fence at 2. rewrite startsWith_backtick.
      destruct (c =? backtick)%N eqn:E; [|reflexivity].
      apply N.eqb_eq in E. exfalso. apply H. now left.
Qed.

End Fences.

(* ===================================================================== *)
(** ** generateSQL *)
(* ===================================================================== *)

Section GenerateSQL.

Context (host : Host) (w : World host).
Variables prompt schemaInfo chain model : str.

Let req := generation_request prompt schemaInfo chain model.

(** [generateSQL] never throws, calls the endpoint once, and its result is
    read off the reply. *)
Lemma generateSQL_run :
  generateSQL host prompt schemaInfo chain model w =
  (Resolves
     match chat_completions_create w req with
     | Resolves (Choice (Some raw)) =>
         {| sql := Some (stripFences raw); sql_error := None |}
     | Resolves (Choice None) =>
         {| sql := None;
            sql_error :=
              Some (lit "Error generating SQL: "
                    ++ message (TypeError_reading host (lit "trim"))) |}
     | Resolves NoChoice =>
         {| sql := None;
            sql_error :=
              Some (lit "Error generating SQL: "
                    ++ message (TypeError_reading host (lit "message"))) |}
     | Rejects e =>
         {| sql := None;
            sql_error := Some (lit "Error generating SQL: " ++ message e) |}
     end,
   [ChatCreate req]).
Proof.
  unfold generateSQL, try_catch, bind, create, call. fold req.
  destruct (chat_completions_create w req) as [[|[c|]]|e]; reflexivity.
Qed.

Lemma includes_longer (s p q : str) :
  includes s p = false -> includes s (p ++ q) = false.
Proof.
  intros H. destruct (includes s (p ++ q)) eqn:E; [|reflexivity].
  destruct (includes_split _ _ E) as (a & b & ->).
  rewrite <- H, <- app_assoc. symmetry. apply includes_app.
Qed.

Lemma replace_hit (s p r : str) :
  startsWith s p = true -> replace s p r = r ++ skipn (length p) s.
Proof. intros H. destruct s; simpl; now rewrite H. Qed.

Lemma replace_prefix (p x r : str) : replace (p ++ x) p r = r ++ x.
Proof.
  rewrite replace_hit by apply startsWith_app.
  f_equal. induction p; [reflexivity|assumption].
Qed.

Lemma stripFences_plain (raw : str) :
  startsWith (trim raw) fence = true ->
  startsWith (trim raw) fence_sql = false ->
  includes (stripFences raw) fence = false.
Proof.
  intros H1 H2. unfold stripFences. rewrite H2, H1.
  apply includes_trim_false, replaceAll_fence_free.
Qed.

Lemma stripFences_sql (raw body tail : str) :
  trim raw = fence_sql ++ body ++ fence ++ tail ->
  noBacktick body ->
  includes tail fence = false ->
  stripFences raw = trim (body ++ tail)
  /\ includes (stripFences raw) fence = false.
Proof.
  intros E Hb Ht. unfold stripFences. rewrite E, startsWith_app.
  rewrite replace_prefix, app_nil_l.
  rewrite replace_noBacktick by assumption. split; [reflexivity|].
  apply includes_trim_false. now rewrite includes_noBacktick.
Qed.

Lemma stripFences_unfenced (raw : str) :
  startsWith (trim raw) fence = false -> stripFences raw = trim raw.
Proof.
  intros H. unfold stripFences. rewrite H.
  replace (startsWith (trim raw) fence_sql) with false; [reflexivity|].
  symmetry. destruct (startsWith (trim raw) fence_sql) eqn:E; [|reflexivity].
  apply startsWith_split in E. rewrite E in H. unfold fence_sql in H.
  rewrite <- app_assoc, startsWith_app in H. discriminate.
Qed.

Ltac locate_rule d e :=
  let n := eval vm_compute in (length d - 34) in
  let m := eval vm_compute in (length (lit "' unless referring to the 'users' table")) in
  replace d with (firstn n d ++ lit "Use table names with the suffix '_")
    by (vm_compute; reflexivity);
  replace e with (lit "' unless referring to the 'users' table" ++ skipn m e)
    by (vm_compute; reflexivity).

(** C7.  Whatever the partition key [chain], the one request sent by
    [generateSQL] carries a system message that contains the table-suffix
    rule for [chain]: table names take the suffix [_chain] unless the
    [users] table is meant. *)
Theorem generation_prompt_binds_tables_to_chain :
  exists sys usr,
    trace (generateSQL host prompt schemaInfo chain model) w
    = [ChatCreate
         (Build_chat_request model
            [ {| msg_role := system; content := sys |};
              {| msg_role := user; content := usr |} ]
            (1 # 10))]
    /\ sys = generation_systemMessage schemaInfo chain
    /\ includes sys (tableSuffixRule chain) = true.
Proof.
  exists (generation_systemMessage schemaInfo chain),
         (lit "Generate PostgreSQL query for: " ++ prompt).
  unfold trace. rewrite generateSQL_run. split; [reflexivity|].
  split; [reflexivity|].
  unfold generation_systemMessage, tableSuffixRule.
  match goal with
  | |- includes (?a1 ++ schemaInfo ++ ?a2 ++ BLOCKCHAIN_CONTEXT ++ ?a3
                 ++ EXAMPLE_QUERIES ++ ?d ++ chain ++ ?e) _ = true =>
      locate_rule d e;
      match goal with
      | |- includes (_ ++ _ ++ _ ++ _ ++ _ ++ _ ++ (?d0 ++ ?p) ++ _ ++ ?s ++ ?e0)
                    _ = true =>
          replace (a1 ++ schemaInfo ++ a2 ++ BLOCKCHAIN_CONTEXT ++ a3
                   ++ EXAMPLE_QUERIES ++ (d0 ++ p) ++ chain ++ s ++ e0)
            with ((a1 ++ schemaInfo ++ a2 ++ BLOCKCHAIN_CONTEXT ++ a3
                   ++ EXAMPLE_QUERIES ++ d0) ++ (p ++ chain ++ s) ++ e0)
            by (rewrite <- !app_assoc; reflexivity)
      end
  end.
  apply includes_app.
Qed.

End GenerateSQL.

(* ===================================================================== *)
(** ** executeQuery and generateResponse *)
(* ===================================================================== *)

Section RemoteCalls.

Context (host : Host) (w : World host).

(** [executeQuery] never throws and queries the database once. *)
Lemma executeQuery_run (sql : str) :
  executeQuery host sql w =
  (Resolves
     match client_query w sql with
     | Resolves res =>
         match pg_rows res with
         | Some rs =>
             Build_QueryResult host (Some rs) None
               (Some (map name (pg_fields res))) (pg_rowCount res)
               CUndefined None
         | None =>
             Build_QueryResult host (Some []) None None CUndefined
               (pg_rowCount res)
               (Some (lit "Query executed successfully. Rows affected: "
                      ++ String_count (pg_rowCount res)))
         end
     | Rejects e =>
         Build_QueryResult host None (Some (message e)) None CUndefined
           CUndefined None
     end,
   [ClientQuery sql]).
Proof.
  unfold executeQuery, try_catch, bind, query, call.
  destruct (client_query w sql) as [res|e]; [|reflexivity].
  destruct (pg_rows res); reflexivity.
Qed.

Lemma executeQuery_result (sql : str) (queryResult : QueryResult host) :
  result (executeQuery host sql) w = Resolves queryResult ->
  executeQuery host sql w = (Resolves queryResult, [ClientQuery sql]).
Proof.
  unfold result. rewrite executeQuery_run. unfold fst. now intros ->.
Qed.

(** [generateResponse] never throws and calls the endpoint once. *)
Lemma generateResponse_run (prompt sql : str) (results : QueryResult host)
    (model : str) :
  generateResponse host prompt sql results model w =
  (Resolves
     match chat_completions_create w
             (summary_request host prompt sql results model) with
     | Resolves (Choice c) => {| response := c; response_error := None |}
     | Resolves NoChoice =>
         {| response := None;
            response_error :=
              Some (lit "Error generating response: "
                    ++ message (TypeError_reading host (lit "message"))) |}
     | Rejects e =>
         {| response := None;
            response_error :=
              Some (lit "Error generating response: " ++ message e) |}
     end,
   [ChatCreate (summary_request host prompt sql results model)]).
Proof.
  unfold generateResponse, try_catch, bind, create, call.
  destruct (chat_completions_create w _) as [[|c]|e]; reflexivity.
Qed.

Lemma generateResponse_result (prompt sql : str) (results : QueryResult host)
    (model : str) (insight : Insight) :
  result (generateResponse host prompt sql results model) w = Resolves insight ->
  generateResponse host prompt sql results model w
  = (Resolves insight,
     [ChatCreate (summary_request host prompt sql results model)]).
Proof.
  unfold result. rewrite generateResponse_run. unfold fst. now intros ->.
Qed.

(** A summary error is never the empty string. *)
Lemma summary_error_isSet (prompt sql : str) (results : QueryResult host)
    (model : str) (insight : Insight) :
  result (generateResponse host prompt sql results model) w = Resolves insight ->
  response_error insight <> None ->
  isSet (response_error insight) = true.
Proof.
  unfold result. rewrite generateResponse_run. unfold fst.
  destruct (chat_completions_create w _) as [[|c]|e];
    intros H; injection H as <-; cbn [response_error]; easy.
Qed.

(** With column names at hand the export step does not throw. *)
Lemma exportStep_run (queryResult : QueryResult host) (answer : str)
    (cols : list str) :
  columnNames queryResult = Some cols ->
  exportStep host queryResult answer w
  = (Resolves tt, trace (exportStep host queryResult answer) w).
Proof.
  intros Hc. unfold trace, exportStep, exportToCSV. rewrite Hc.
  destruct (eqb_str _ _); [|reflexivity].
  destruct (noRows host (rows queryResult)); [reflexivity|].
  unfold try_catch, bind, new_Date_toISOString, writeRecords, call,
    console_log, console_error, emit.
  destruct (csvWriter_writeRecords w _ _ _) as [[]|e]; reflexivity.
Qed.

End RemoteCalls.

(* ===================================================================== *)
(** ** The turn *)
(* ===================================================================== *)

Section Turn.

Context (host : Host) (w : World host).
Variable prompt : str.

Let req := generation_request prompt SCHEMA_INFO (CHAIN host) OPENAI_MODEL.

Lemma isQuestion_inv :
  isQuestion host prompt = true ->
  (eqb_str (toLowerCase host prompt) (lit "exit")
   || eqb_str (toLowerCase host prompt) (lit "quit")) = false
  /\ negb (truthy (trim prompt)) = false.
Proof.
  unfold isQuestion. intros H. apply andb_true_iff in H as [H1 H2].
  apply negb_true_iff in H1. rewrite H1, H2. now split.
Qed.

Ltac enter_turn Hq :=
  let H1 := fresh in
  let H2 := fresh in
  destruct (isQuestion_inv Hq) as [H1 H2];
  unfold trace, result, turn, onQuestion; rewrite H1, H2;
  cbv [bind try_catch console_log console_error emit promptUser ret
       question call].



(** From here on the endpoint has answered the generation call with
    [raw], and [sqlText] is the query text kept from it. *)
Variable raw : str.
Hypothesis generated : chat_completions_create w req = Resolves (Choice (Some raw)).

Let sqlText := stripFences raw.

(** What the turn has printed and called when the query has been sent. *)
Let untilQuery : list (event host) :=
  [ ConsoleLog (chalk host cyan (lit "
Generating SQL query..."));
    ChatCreate req;
    ConsoleLog (chalk host cyan (lit "Generated SQL:"));
    ConsoleLog (chalk host blue sqlText);
    ConsoleLog [];
    ConsoleLog (chalk host cyan (lit "Executing query..."));
    ClientQuery sqlText ].

Ltac enter_query Hq :=
  enter_turn Hq; rewrite generateSQL_run; fold req; rewrite generated;
  cbn [sql_error isSet sql orNull];
  fold sqlText; rewrite executeQuery_run.

Lemma errorType_cases (msg : str) :
  (errorType host msg = lit "Syntax error"
   <-> includes (toLowerCase host msg) (lit "syntax") = true)
  /\ (errorType host msg = lit "Database error"
      <-> includes (toLowerCase host msg) (lit "syntax") = false).
Proof.
  unfold errorType.
  destruct (includes (toLowerCase host msg) (lit "syntax")); split; split;
    try reflexivity; try discriminate; intros H; vm_compute in H; discriminate.
Qed.

(** A failed execution whose message is not empty is shown with its
    classification, and the turn ends in the same way for either class. *)
Lemma execution_failure_is_classified (e : JsError) :
  isQuestion host prompt = true ->
  client_query w sqlText = Rejects e ->
  message e <> [] ->
  trace (turn host prompt) w =
    untilQuery ++
    [ ConsoleError
        (chalk host red (lit "Failed to execute query: " ++ message e));
      ConsoleLog
        (chalk host cyan (lit "Error type: " ++ errorType host (message e)));
      PromptUser ]
  /\ result (turn host prompt) w = Resolves tt.
Proof.
  intros Hq He Hmsg. enter_query Hq. rewrite He.
  cbn [error isSet orNull]. destruct (message e) as [|c m]; [easy|].
  cbn [truthy]. cbn beta iota. cbn [fst snd app]. now split.
Qed.

(** A failed execution whose message is empty is not classified: the turn
    reports an empty result. *)
Lemma execution_failure_with_empty_message (e : JsError) :
  isQuestion host prompt = true ->
  client_query w sqlText = Rejects e ->
  message e = [] ->
  trace (turn host prompt) w =
    untilQuery ++
    [ ConsoleLog (chalk host cyan (lit "The query returned no results."));
      PromptUser ].
Proof.
  intros Hq He Hmsg. enter_query Hq. rewrite He.
  cbn [error isSet orNull]. rewrite Hmsg.
  cbn [truthy rows noRows]. cbn beta iota. cbn [fst snd app]. reflexivity.
Qed.

(** C3.  When the query comes back without an error and with no rows (an
    empty or a null [rows]), the turn prints that there are no results and
    re-arms the prompt: the only chat call is the generation call, no
    summary request is sent, and no file is written; [exportToCSV] itself
    writes nothing for such rows. *)
Theorem empty_result_short_circuits (queryResult : QueryResult host) :
  isQuestion host prompt = true ->
  result (executeQuery host sqlText) w = Resolves queryResult ->
  isSet (error queryResult) = false ->
  noRows host (rows queryResult) = true ->
  trace (turn host prompt) w =
    untilQuery ++
    [ ConsoleLog (chalk host cyan (lit "The query returned no results."));
      PromptUser ]
  /\ result (turn host prompt) w = Resolves tt
  /\ (forall rq, In (ChatCreate rq) (trace (turn host prompt) w) -> rq = req)
  /\ (forall p s r m,
        ~ In (ChatCreate (summary_request host p s r m))
             (trace (turn host prompt) w))
  /\ (forall path header records,
        ~ In (WriteRecords path header records) (trace (turn host prompt) w))
  /\ (forall cols w',
        trace (exportToCSV host (rows queryResult) cols) w'
        = [ConsoleLog (chalk host yellow (lit "No data to export"))]).
Proof.
  intros Hq Hres Herr Hrows. apply executeQuery_result in Hres.
  assert (T : trace (turn host prompt) w =
    untilQuery ++
    [ ConsoleLog (chalk host cyan (lit "The query returned no results."));
      PromptUser ]
    /\ result (turn host prompt) w = Resolves tt).
  { enter_turn Hq. rewrite generateSQL_run. fold req. rewrite generated.
    cbn [sql_error isSet sql orNull].
    fold sqlText. rewrite Hres, Herr, Hrows.
    cbn beta iota. cbn [fst snd app]. now split. }
  destruct T as [T R]. rewrite T.
  refine (conj eq_refl (conj R (conj _ (conj _ (conj _ _))))).
  - intros rq [F|[F|[F|[F|[F|[F|[F|[F|[F|[]]]]]]]]]]; try discriminate.
    now injection F.
  - intros p s r m [F|[F|[F|[F|[F|[F|[F|[F|[F|[]]]]]]]]]]; discriminate.
  - intros path header records [F|[F|[F|[F|[F|[F|[F|[F|[F|[]]]]]]]]]];
      discriminate.
  - intros cols w'. unfold trace, exportToCSV. now rewrite Hrows.
Qed.


(** C6.  When the query has returned rows, the turn prints the row count
    and the result table and asks the export question before it requests
    the summary; if [generateResponse] then returns an error, the turn
    prints that error and re-arms the prompt, and nothing is thrown. *)
Theorem summary_failure_is_not_fatal (res : pg_result host) 
    (rs : list (row (number host) (object host))) (insight : Insight) :
  isQuestion host prompt = true ->
  client_query w sqlText = Resolves res ->
  pg_rows res = Some rs ->
  rs <> [] ->
  let queryResult :=
    Build_QueryResult host (Some rs) None (Some (map name (pg_fields res)))
      (pg_rowCount res) CUndefined None in
  let exportQuestion :=
    chalk host cyan
      (lit "Would you like to export these results to CSV? (y/n): ") in
  let summary :=
    summary_request host prompt sqlText queryResult OPENAI_MODEL in
  result (generateResponse host prompt sqlText queryResult OPENAI_MODEL) w
  = Resolves insight ->
  response_error insight <> None ->
  trace (turn host prompt) w =
    untilQuery ++
    [ ConsoleLog
        (chalk host green
           (lit "Query returned " ++ String_count (pg_rowCount res)
            ++ lit " rows."));
      ConsoleLog (chalk host cyan (lit "Results preview:"));
      ConsoleLog
        (formatResultTable host (Some rs) (Some (map name (pg_fields res))));
      ConsoleLog [];
      RlQuestion exportQuestion ] ++
    trace (exportStep host queryResult (rl_answer w exportQuestion)) w ++
    [ ConsoleLog (chalk host cyan (lit "Generating insights..."));
      ChatCreate summary;
      ConsoleError
        (chalk host red
           (lit "Failed to generate insights: "
            ++ orNull (response_error insight)));
      PromptUser ]
  /\ result (turn host prompt) w = Resolves tt.
Proof.
  intros Hq Hres Hrows Hne queryResult exportQuestion summary Hins Herr.
  pose proof (summary_error_isSet _ _ _ _ _ _ _ Hins Herr) as Hset.
  apply generateResponse_result in Hins.
  pose proof (exportStep_run host w queryResult (rl_answer w exportQuestion)
                (map name (pg_fields res)) eq_refl) as Hexp.
  enter_turn Hq. rewrite generateSQL_run. fold req. rewrite generated.
  cbn [sql_error isSet sql orNull].
  fold sqlText. rewrite executeQuery_run, Hres, Hrows.
  fold queryResult. cbn [error isSet rows noRows queryResult].
  destruct rs as [|r rs']; [easy|]. cbn [length Nat.eqb].
  cbn beta iota. fold exportQuestion. cbn [fst snd app].
  unfold onAnswer.
  cbv [bind try_catch console_log console_error emit promptUser ret question call].
  rewrite Hexp, Hins, Hset.
  cbn beta iota. cbn [fst snd app rows columnNames rowCount queryResult].
  split; [|reflexivity].
  reflexivity.
Qed.

End Turn.

(* ===================================================================== *)
(** ** The summary prompt *)
(* ===================================================================== *)

Section SummaryPrompt.

Context (host : Host) (w : World host).

Lemma includes_head (s b : str) : includes (s ++ b) s = true.
Proof. apply (includes_app [] s b). Qed.

Lemma includes_skip (a b s : str) :
  includes b s = true -> includes (a ++ b) s = true.
Proof.
  intros H. destruct (includes_split _ _ H) as (u & v & ->).
  rewrite app_assoc. apply includes_app.
Qed.

Ltac embedded := repeat first [apply includes_head | apply includes_skip].

Lemma firstn_all_of (A : Type) (n : nat) (l : list A) :
  length l <= n -> firstn n l = l.
Proof.
  revert n; induction l as [|x l IH]; intros [|n] H;
    try reflexivity; simpl in *; [lia|]. f_equal. apply IH. lia.
Qed.

(** C4.  For a result with at least one row, the one request sent by
    [generateResponse] has a user message that embeds, in this order, the
    question, the query text, the number of rows, the column names joined
    by a comma, and the serialization of the first five rows at most; a
    result of three rows is serialized whole. *)
Theorem summary_prompt_embeds_results (prompt sql modelName : str)
    (results : QueryResult host)
    (rs : list (row (number host) (object host))) (cols : list str) :
  rows results = Some rs ->
  rs <> [] ->
  columnNames results = Some cols ->
  let sample := JSON_stringify_rows host (firstn 5 rs) in
  let userMessage := summary_userMessage host prompt sql results in
  trace (generateResponse host prompt sql results modelName) w
  = [ChatCreate
       (Build_chat_request modelName
          [ {| msg_role := system; content := summary_systemMessage |};
            {| msg_role := user; content := userMessage |} ]
          (7 # 10))]
  /\ userMessage =
    lit "User question: "
      ++ prompt
      ++ lit "
SQL query used: "
      ++ sql
      ++ lit "
Number of rows returned: "
      ++ ofNat (length rs)
      ++ lit "
Column names: "
      ++ join cols (lit ", ")
      ++ lit "
Sample of results (first 5 rows):
"
      ++ sample
      ++ lit "

Please provide a natural language explanation of these results, focusing on insights that answer the user's question."
  /\ includes userMessage prompt = true
  /\ includes userMessage sql = true
  /\ includes userMessage (ofNat (length rs)) = true
  /\ includes userMessage (join cols (lit ", ")) = true
  /\ includes userMessage sample = true
  /\ length (firstn 5 rs) = Nat.min 5 (length rs)
  /\ (exists rest, rs = firstn 5 rs ++ rest)
  /\ (length rs = 3 -> sample = JSON_stringify_rows host rs).
Proof.
  intros Hrows Hne Hcols sample userMessage.
  assert (E : userMessage =
    lit "User question: "
      ++ prompt
      ++ lit "
SQL query used: "
      ++ sql
      ++ lit "
Number of rows returned: "
      ++ ofNat (length rs)
      ++ lit "
Column names: "
      ++ join cols (lit ", ")
      ++ lit "
Sample of results (first 5 rows):
"
      ++ sample
      ++ lit "

Please provide a natural language explanation of these results, focusing on insights that answer the user's question.").
  { unfold userMessage, summary_userMessage, resultSample, summary_rowCount,
      summary_colNames. rewrite Hrows, Hcols.
    destruct rs as [|r rs']; [easy|]. reflexivity. }
  split; [unfold trace; now rewrite generateResponse_run|].
  split; [exact E|].
  repeat split.
  - rewrite E. embedded.
  - rewrite E. embedded.
  - rewrite E. embedded.
  - rewrite E. embedded.
  - rewrite E. embedded.
  - apply length_firstn.
  - exists (skipn 5 rs). symmetry. apply firstn_skipn.
  - intros H3. unfold sample. now rewrite firstn_all_of by lia.
Qed.

End SummaryPrompt.

(* ===================================================================== *)
(** ** The result table *)
(* ===================================================================== *)

Section ResultTable.

Context (host : Host).

Abbreviation row := (row (number host) (object host)).

Lemma fill_table (cols : list str) (rs : list row) (t : Table) :
  fold_left (fun table r => push table (rowValues host cols r)) rs t
  = {| head := head t; body := body t ++ map (rowValues host cols) rs |}.
Proof.
  revert t; induction rs as [|r rs IH]; intros t.
  - cbn [fold_left map]. rewrite app_nil_r. now destruct t.
  - cbn [fold_left map]. rewrite IH. unfold push. cbn [head body].
    now rewrite <- app_assoc.
Qed.

Lemma resultTable_eq (rs : list row) (cols : list str) :
  resultTable host rs cols
  = {| head := cols; body := map (rowValues host cols) (firstn 10 rs) |}.
Proof. unfold resultTable. now rewrite fill_table. Qed.

(** C9.  The table handed to the renderer has the column names as its
    head and one line for each of the first ten result rows, in result
    order, and no line for any later row. *)
Theorem table_shows_first_ten_rows (rs : list row) (cols : list str) :
  head (resultTable host rs cols) = cols
  /\ body (resultTable host rs cols)
     = map (rowValues host cols) (firstn 10 rs)
  /\ length (body (resultTable host rs cols)) = Nat.min 10 (length rs)
  /\ formatResultTable host (Some rs) (Some cols)
     = if length rs =? 0 then lit "No results"
       else Table_toString host
              {| head := cols;
                 body := map (rowValues host cols) (firstn 10 rs) |}.
Proof.
  rewrite resultTable_eq. cbn [head body]. repeat split.
  - now rewrite length_map, length_firstn.
  - unfold formatResultTable. now rewrite resultTable_eq.
Qed.

Lemma table_cell (rs : list row) (cols : list str) (i j : nat) (r : row)
    (col : str) :
  nth_error rs i = Some r ->
  i < 10 ->
  nth_error cols j = Some col ->
  exists cells,
    nth_error (body (resultTable host rs cols)) i = Some cells
    /\ nth_error cells j = Some (formatCell host (get r col)).
Proof.
  intros Hr Hi Hc. exists (rowValues host cols r).
  destruct (table_shows_first_ten_rows rs cols) as (_ & -> & _).
  split.
  - apply map_nth_error. rewrite nth_error_firstn.
    apply Nat.ltb_lt in Hi. now rewrite Hi.
  - unfold rowValues.
    apply (map_nth_error (fun c => formatCell host (get r c))). exact Hc.
Qed.

(** What [formatResultTable] returns when there is a row to show. *)
Lemma formatResultTable_renders (rs : list row) (cols : list str) (i : nat)
    (r : row) :
  nth_error rs i = Some r ->
  formatResultTable host (Some rs) (Some cols)
  = Table_toString host (resultTable host rs cols).
Proof.
  intros Hr. unfold formatResultTable.
  destruct rs as [|r0 rs']; [destruct i; discriminate Hr|reflexivity].
Qed.

(** C8.  [formatResultTable] returns the rendering of a table in which,
    in the line of a displayed row, the cell of a column whose value
    is [null] is the text NULL; the cell of a string of more than 30 code
    units is its first 30 code units followed by three dots; the cell of a
    string of at most 30 code units is the string itself. *)
Theorem table_cell_null_and_long_text (rs : list row) (cols : list str)
    (i j : nat) (r : row) (col : str) :
  nth_error rs i = Some r ->
  i < 10 ->
  nth_error cols j = Some col ->
  formatResultTable host (Some rs) (Some cols)
  = Table_toString host (resultTable host rs cols)
  /\ exists cells cell,
    nth_error (body (resultTable host rs cols)) i = Some cells
    /\ nth_error cells j = Some cell
    /\ (get r col = VNull -> cell = lit "NULL")
    /\ (forall s, get r col = VString s -> 30 < length s ->
                  cell = firstn 30 s ++ lit "...")
    /\ (forall s, get r col = VString s -> length s <= 30 -> cell = s).
Proof.
  intros Hr Hi Hc. split; [exact (formatResultTable_renders rs cols i r Hr)|].
  destruct (table_cell rs cols i j r col Hr Hi Hc) as (cells & H1 & H2).
  exists cells, (formatCell host (get r col)).
  split; [exact H1|]. split; [exact H2|]. split; [|split].
  - now intros ->.
  - intros s -> Hlen. cbn [formatCell]. unfold clip, substring0.
    apply Nat.ltb_lt in Hlen. now rewrite Hlen.
  - intros s -> Hlen. cbn [formatCell]. unfold clip, substring0.
    replace (30 <? length s) with false
      by (symmetry; apply Nat.ltb_ge; exact Hlen).
    rewrite app_nil_r. now apply firstn_all_of.
Qed.

(** C10.  [formatResultTable] returns the rendering of a table in which,
    in the line of a displayed row, the cell of a column whose value
    is a non-null object is the whole JSON serialization of that object,
    however long: nothing is cut and no dots are added. *)
Theorem table_cell_object_untruncated (rs : list row) (cols : list str)
    (i j : nat) (r : row) (col : str) (o : object host) :
  nth_error rs i = Some r ->
  i < 10 ->
  nth_error cols j = Some col ->
  get r col = VObject o ->
  formatResultTable host (Some rs) (Some cols)
  = Table_toString host (resultTable host rs cols)
  /\ exists cells,
    nth_error (body (resultTable host rs cols)) i = Some cells
    /\ nth_error cells j = Some (JSON_stringify host o).
Proof.
  intros Hr Hi Hc Ho. split; [exact (formatResultTable_renders rs cols i r Hr)|].
  destruct (table_cell rs cols i j r col Hr Hi Hc) as (cells & H1 & H2).
  exists cells. split; [exact H1|]. now rewrite Ho in H2.
Qed.

End ResultTable.

(* ===================================================================== *)
(** ** The program at work *)
(* ===================================================================== *)

Section Runs.

Import Demo.

Let ask : chat_request :=
  generation_request question1 SCHEMA_INFO (lit "base") OPENAI_MODEL.

(** A reply without fences passes unchanged. *)
Example plain_reply_is_kept : stripFences select1 = select1.
Proof. vm_compute. reflexivity. Qed.

(** C1, as stated, fails: a reply with prose before its code block
    contains a fence marker, and so does the query text kept from it. *)
Lemma fence_after_prose_is_kept :
  includes proseThenFence fence = true
  /\ exists s,
       result (generateSQL host question1 SCHEMA_INFO (lit "base") OPENAI_MODEL)
              (replying proseThenFence)
       = Resolves {| sql := Some s; sql_error := None |}
       /\ s = proseThenFence
       /\ includes s fence = true
       /\ includes s fence_sql = true.
Proof.
  split; [vm_compute; reflexivity|].
  exists proseThenFence. vm_compute. repeat split.
Qed.

(** Of two code blocks behind a tagged opening only the first closing
    fence is removed. *)
Example second_block_keeps_its_fences :
  includes
    (stripFences (fencedSql ++ lit "
```sql
SELECT 2;
```"))
    fence = true.
Proof. vm_compute. reflexivity. Qed.



(** C2.  The driver rejects the query with an error whose message is the
    empty string: the turn prints no classification at all and reports an
    empty result instead. *)
Theorem empty_failure_message_is_not_classified :
  client_query emptyMessage (stripFences select1) = Rejects (failure [])
  /\ trace (turn host question1) emptyMessage =
     [ ConsoleLog (lit "
Generating SQL query...");
       ChatCreate ask;
       ConsoleLog (lit "Generated SQL:");
       ConsoleLog select1;
       ConsoleLog [];
       ConsoleLog (lit "Executing query...");
       ClientQuery select1;
       ConsoleLog (lit "The query returned no results.");
       PromptUser ].
Proof.
  split; [reflexivity|].
  rewrite (execution_failure_with_empty_message host emptyMessage question1
             select1 eq_refl (failure []) eq_refl eq_refl eq_refl).
  vm_compute. reflexivity.
Qed.

(** A failure with a message is classified by the word syntax. *)
Example syntax_error_is_classified :
  trace (turn host question1) syntaxError =
     [ ConsoleLog (lit "
Generating SQL query...");
       ChatCreate ask;
       ConsoleLog (lit "Generated SQL:");
       ConsoleLog select1;
       ConsoleLog [];
       ConsoleLog (lit "Executing query...");
       ClientQuery select1;
       ConsoleError
         (lit "Failed to execute query: ERROR: syntax error at or near SELECT");
       ConsoleLog (lit "Error type: Syntax error");
       PromptUser ].
Proof. vm_compute. reflexivity. Qed.

(** A query without rows: no summary call and no file. *)
Lemma empty_result_short_circuits_witness :
  isQuestion host question1 = true
  /\ noRows host (pg_rows noRowsAtAll) = true
  /\ trace (turn host question1) emptyTable =
     [ ConsoleLog (lit "
Generating SQL query...");
       ChatCreate ask;
       ConsoleLog (lit "Generated SQL:");
       ConsoleLog select1;
       ConsoleLog [];
       ConsoleLog (lit "Executing query...");
       ClientQuery select1;
       ConsoleLog (lit "The query returned no results.");
       PromptUser ]
  /\ result (turn host question1) emptyTable = Resolves tt.
Proof.
  split; [reflexivity|]. split; [reflexivity|].
  destruct (empty_result_short_circuits host emptyTable question1 select1
              eq_refl
              (Build_QueryResult host (Some []) None (Some [lit "hash"])
                 (CNum 0) CUndefined None)
              eq_refl eq_refl eq_refl eq_refl)
    as (Htrace & Hres & _).
  split; [|exact Hres].
  rewrite Htrace. vm_compute. reflexivity.
Defined.

(** Three rows of two columns in the summary prompt. *)
Lemma summary_prompt_embeds_results_witness :
  let results :=
    Build_QueryResult host (pg_rows threeRows) None
      (Some [lit "hash"; lit "number"]) (CNum 3) CUndefined None in
  let userMessage := summary_userMessage host question1 select1 results in
  includes userMessage question1 = true
  /\ includes userMessage select1 = true
  /\ includes userMessage (lit "3") = true
  /\ includes userMessage (lit "hash, number") = true
  /\ includes userMessage
       (JSON_stringify_rows host
          match pg_rows threeRows with Some rs => rs | None => [] end)
     = true.
Proof.
  intros results userMessage.
  destruct (summary_prompt_embeds_results host summaryDown question1 select1
              OPENAI_MODEL results
              match pg_rows threeRows with Some rs => rs | None => [] end
              [lit "hash"; lit "number"]
              eq_refl ltac:(discriminate) eq_refl)
    as (_ & _ & H1 & H2 & H3 & H4 & H5 & _).
  repeat split; assumption.
Defined.

(** The summary call answers 503 after the table was shown and
    the rows were exported. *)
Lemma summary_failure_is_not_fatal_witness :
  isQuestion host question1 = true
  /\ result (turn host question1) summaryDown = Resolves tt
  /\ trace (turn host question1) summaryDown =
     [ ConsoleLog (lit "
Generating SQL query...");
       ChatCreate ask;
       ConsoleLog (lit "Generated SQL:");
       ConsoleLog select1;
       ConsoleLog [];
       ConsoleLog (lit "Executing query...");
       ClientQuery select1;
       ConsoleLog (lit "Query returned 3 rows.");
       ConsoleLog (lit "Results preview:");
       ConsoleLog (lit "hash | number
0xaa | 3
0xbb | 2
0xcc | NULL");
       ConsoleLog [];
       RlQuestion (lit "Would you like to export these results to CSV? (y/n): ");
       WriteRecords (lit "query_results_2024-05-01T10-20-30-456Z.csv")
         [ (lit "hash", lit "hash"); (lit "number", lit "number") ]
         match pg_rows threeRows with Some rs => rs | None => [] end;
       ConsoleLog
         (lit "Results exported to query_results_2024-05-01T10-20-30-456Z.csv");
       ConsoleLog (lit "Generating insights...");
       ChatCreate
         (summary_request host question1 select1
            (Build_QueryResult host (pg_rows threeRows) None
               (Some [lit "hash"; lit "number"]) (CNum 3) CUndefined None)
            OPENAI_MODEL);
       ConsoleError
         (lit "Failed to generate insights: Error generating response: 503 Service Unavailable");
       PromptUser ].
Proof.
  split; [reflexivity|].
  destruct (summary_failure_is_not_fatal host summaryDown question1 select1
              eq_refl threeRows
              match pg_rows threeRows with Some rs => rs | None => [] end
              {| response := None;
                 response_error :=
                   Some (lit "Error generating response: 503 Service Unavailable") |}
              eq_refl eq_refl eq_refl ltac:(discriminate) eq_refl
              ltac:(discriminate))
    as (Htrace & Hres).
  split; [exact Hres|].
  rewrite Htrace. vm_compute. reflexivity.
Defined.

(** Twelve rows: the table has ten lines. *)
Example twelve_rows_ten_lines :
  let r : row nat str := [ (lit "n", VNumber 7) ] in
  length (body (resultTable host (repeat r 12) [lit "n"])) = 10.
Proof. vm_compute. reflexivity. Qed.

(** A 42-unit address is cut to 30 units and three dots; a null
    prints as NULL. *)
Lemma table_cell_null_and_long_text_witness :
  formatResultTable host (Some [wideRow; [(lit "pool_address", VNull)]])
    (Some [lit "token_a_details"; lit "pool_address"])
  = Table_toString host
      (resultTable host [wideRow; [(lit "pool_address", VNull)]]
         [lit "token_a_details"; lit "pool_address"])
  /\ exists cells cell,
    nth_error (body (resultTable host [wideRow; [(lit "pool_address", VNull)]]
                       [lit "token_a_details"; lit "pool_address"])) 0
    = Some cells
    /\ nth_error cells 1 = Some cell
    /\ cell = lit "0x4200000000000000000000000000..."
    /\ exists cells' cell',
         nth_error (body (resultTable host
                            [wideRow; [(lit "pool_address", VNull)]]
                            [lit "token_a_details"; lit "pool_address"])) 1
         = Some cells'
         /\ nth_error cells' 1 = Some cell'
         /\ cell' = lit "NULL".
Proof.
  destruct (table_cell_null_and_long_text host
              [wideRow; [(lit "pool_address", VNull)]]
              [lit "token_a_details"; lit "pool_address"]
              0 1 wideRow (lit "pool_address")
              eq_refl ltac:(lia) eq_refl)
    as (Hfmt & cells & cell & H1 & H2 & _ & Hlong & _).
  destruct (table_cell_null_and_long_text host
              [wideRow; [(lit "pool_address", VNull)]]
              [lit "token_a_details"; lit "pool_address"]
              1 1 [(lit "pool_address", VNull)] (lit "pool_address")
              eq_refl ltac:(lia) eq_refl)
    as (_ & cells' & cell' & H1' & H2' & Hnull & _).
  split; [exact Hfmt|].
  exists cells, cell. split; [exact H1|]. split; [exact H2|].
  split.
  - rewrite (Hlong (lit "0x4200000000000000000000000000000000000006") eq_refl)
      by (vm_compute; lia).
    vm_compute. reflexivity.
  - exists cells', cell'. split; [exact H1'|]. split; [exact H2'|].
    apply Hnull. reflexivity.
Defined.

(** A JSON document of 44 code units fills its cell whole. *)
Lemma table_cell_object_untruncated_witness :
  formatResultTable host (Some [wideRow])
    (Some [lit "token_a_details"; lit "pool_address"])
  = Table_toString host
      (resultTable host [wideRow]
         [lit "token_a_details"; lit "pool_address"])
  /\ exists cells,
    nth_error (body (resultTable host [wideRow]
                       [lit "token_a_details"; lit "pool_address"])) 0
    = Some cells
    /\ nth_error cells 0
       = Some (lit "{" ++ dquote ++ lit "symbol" ++ dquote ++ lit ":"
               ++ dquote ++ lit "WETH" ++ dquote ++ lit ","
               ++ dquote ++ lit "name" ++ dquote ++ lit ":"
               ++ dquote ++ lit "Wrapped Ether" ++ dquote ++ lit "}").
Proof.
  exact (table_cell_object_untruncated host [wideRow]
           [lit "token_a_details"; lit "pool_address"]
           0 0 wideRow (lit "token_a_details") _
           eq_refl ltac:(lia) eq_refl eq_refl).
Defined.

(** With the default chain, the rule names the suffix [_base]. *)
Example base_rule_in_generation_prompt :
  CHAIN host = lit "base"
  /\ includes (generation_systemMessage SCHEMA_INFO (CHAIN host))
       (lit "Use table names with the suffix '_base' unless referring to the 'users' table")
     = true.
Proof. vm_compute. split; reflexivity. Qed.

End Runs.

(* ===================================================================== *)
(** ** More on trimming and on the query text *)
(* ===================================================================== *)

Section Trimmed.

Lemma trimStart_fixed (s : str) : trimStart (trimStart s) = trimStart s.
Proof.
  induction s as [|c s IH]; [reflexivity|].
  simpl. destruct (isWhiteSpace c) eqn:E; [exact IH|].
  simpl. now rewrite E.
Qed.

Lemma trimStart_keeps (c : char) (s : str) :
  isWhiteSpace c = false -> trimStart (c :: s) = c :: s.
Proof. intros E. simpl. now rewrite E. Qed.

Lemma trimStart_head (s : str) (c : char) (rest : str) :
  trimStart s = c :: rest -> isWhiteSpace c = false.
Proof.
  induction s as [|d s IH]; [discriminate|].
  simpl. destruct (isWhiteSpace d) eqn:E; [exact IH|].
  intros H. injection H as <- _. exact E.
Qed.

Lemma trimEnd_fixed (s : str) : trimEnd (trimEnd s) = trimEnd s.
Proof. unfold trimEnd. now rewrite rev_involutive, trimStart_fixed. Qed.

Lemma trimEnd_last (s pre : str) (c : char) :
  trimEnd s = pre ++ [c] -> isWhiteSpace c = false.
Proof.
  unfold trimEnd. intros H.
  apply (f_equal (@rev char)) in H.
  rewrite rev_involutive, rev_app_distr in H. simpl in H.
  exact (trimStart_head _ _ _ H).
Qed.

(** Trimming the end leaves a trimmed start alone. *)
Lemma trimStart_trimEnd (s : str) :
  trimStart s = s -> trimStart (trimEnd s) = trimEnd s.
Proof.
  intros H. destruct (trimEnd_prefix s) as [b Hb].
  destruct (trimEnd s) as [|c t] eqn:E; [reflexivity|].
  apply trimStart_keeps. rewrite Hb in H. simpl in H.
  destruct (isWhiteSpace c) eqn:Ec; [|reflexivity].
  exfalso.
  destruct (trimStart_suffix (t ++ b)) as [a Ha].
  apply (f_equal (@length char)) in H.
  rewrite Ha in H at 2. simpl in H. rewrite length_app in H. lia.
Qed.

Lemma trim_fixed (s : str) : trim (trim s) = trim s.
Proof.
  unfold trim.
  rewrite (trimStart_trimEnd (trimStart s)) by apply trimStart_fixed.
  apply trimEnd_fixed.
Qed.

Lemma trim_ends (s : str) :
  (forall c rest, trim s = c :: rest -> isWhiteSpace c = false)
  /\ (forall pre c, trim s = pre ++ [c] -> isWhiteSpace c = false).
Proof.
  split.
  - intros c rest H. apply (trimStart_head (trim s) c rest).
    unfold trim in *.
    now rewrite (trimStart_trimEnd (trimStart s)) by apply trimStart_fixed.
  - intros pre c H. unfold trim in H. exact (trimEnd_last _ _ _ H).
Qed.

Lemma trimStart_drops_spaces (s : str) :
  exists a, s = a ++ trimStart s /\ forallb isWhiteSpace a = true.
Proof.
  induction s as [|c s (a & IH & Ha)]; simpl.
  - now exists [].
  - destruct (isWhiteSpace c) eqn:E.
    + exists (c :: a). simpl. rewrite E, Ha. split; [now f_equal|reflexivity].
    + now exists [].
Qed.

Lemma forallb_rev (f : char -> bool) (l : list char) :
  forallb f (rev l) = forallb f l.
Proof.
  induction l as [|x l IH]; [reflexivity|].
  simpl. rewrite forallb_app, IH. simpl. rewrite andb_true_r. apply andb_comm.
Qed.

Lemma trimEnd_drops_spaces (s : str) :
  exists b, s = trimEnd s ++ b /\ forallb isWhiteSpace b = true.
Proof.
  unfold trimEnd. destruct (trimStart_drops_spaces (rev s)) as (a & H & Ha).
  exists (rev a). split.
  - rewrite <- rev_app_distr, <- H. symmetry; apply rev_involutive.
  - now rewrite forallb_rev.
Qed.

(** [trim] removes white space only. *)
Lemma trim_drops_spaces (s : str) :
  exists a b,
    s = a ++ trim s ++ b
    /\ forallb isWhiteSpace a = true /\ forallb isWhiteSpace b = true.
Proof.
  unfold trim. destruct (trimStart_drops_spaces s) as (a & Ha & Wa).
  destruct (trimEnd_drops_spaces (trimStart s)) as (b & Hb & Wb).
  exists a, b. now rewrite <- Hb.
Qed.

Lemma stripFences_is_trim (raw : str) :
  exists t, stripFences raw = trim t.
Proof.
  unfold stripFences.
  destruct (startsWith (trim raw) fence_sql); [eexists; reflexivity|].
  destruct (startsWith (trim raw) fence); eexists; reflexivity.
Qed.

End Trimmed.

Section QueryText.

Context (host : Host) (w : World host).
Variables prompt schemaInfo chain modelName : str.

(** X1.  The query text returned by [generateSQL] never begins or ends
    with a white-space code unit, and trimming it again changes nothing. *)
Theorem query_text_is_trimmed (raw : str) :
  chat_completions_create w
    (generation_request prompt schemaInfo chain modelName)
  = Resolves (Choice (Some raw)) ->
  exists s,
    result (generateSQL host prompt schemaInfo chain modelName) w
    = Resolves {| sql := Some s; sql_error := None |}
    /\ trim s = s
    /\ (forall c rest, s = c :: rest -> isWhiteSpace c = false)
    /\ (forall pre c, s = pre ++ [c] -> isWhiteSpace c = false).
Proof.
  intros Hreply. exists (stripFences raw).
  unfold result. rewrite generateSQL_run, Hreply. split; [reflexivity|].
  destruct (stripFences_is_trim raw) as [t ->].
  split; [apply trim_fixed|]. apply trim_ends.
Qed.

(** X2.  A reply that, once trimmed, does not begin with a fence marker is
    returned with its leading and trailing white space removed and
    nothing else changed. *)
Theorem unfenced_reply_is_only_trimmed (raw : str) :
  chat_completions_create w
    (generation_request prompt schemaInfo chain modelName)
  = Resolves (Choice (Some raw)) ->
  startsWith (trim raw) fence = false ->
  result (generateSQL host prompt schemaInfo chain modelName) w
  = Resolves {| sql := Some (trim raw); sql_error := None |}
  /\ exists before after,
       raw = before ++ trim raw ++ after
       /\ forallb isWhiteSpace before = true
       /\ forallb isWhiteSpace after = true.
Proof.
  intros Hreply Hf. unfold result. rewrite generateSQL_run, Hreply.
  rewrite (stripFences_unfenced raw Hf). split; [reflexivity|].
  apply trim_drops_spaces.
Qed.

End QueryText.

(* ===================================================================== *)
(** ** Every turn, whatever the world *)
(* ===================================================================== *)

Section EveryTurn.

Context (host : Host) (w : World host).
Variable prompt : str.

Lemma truthy_generation_error (u : str) :
  truthy (lit "Error generating SQL: " ++ u) = true.
Proof. reflexivity. Qed.

Lemma truthy_summary_error (u : str) :
  truthy (lit "Error generating response: " ++ u) = true.
Proof. reflexivity. Qed.

(** Open the turn up to its remote replies and decide them one by one,
    innermost first. *)
Ltac open_turn :=
  unfold trace, result, turn, onQuestion, onAnswer, onError, exportStep,
    exportToCSV, generateSQL, executeQuery, generateResponse;
  cbv [bind try_catch console_log console_error emit promptUser ret throw
       question call create query writeRecords new_Date_toISOString].

Ltac decide_next :=
  match goal with
  | |- context [match ?x with _ => _ end] =>
      lazymatch x with
      | context [match _ with _ => _ end] => fail
      | _ => destruct x eqn:?
      end
  end.

Ltac settle :=
  cbn [fst snd app sql sql_error response response_error rows error
       columnNames rowCount isSet orNull noRows negb length Nat.eqb];
  rewrite ?truthy_generation_error, ?truthy_summary_error.

Ltac every_case := open_turn; settle; repeat (decide_next; settle).

Ltac pick_shape :=
  first
    [ left; reflexivity
    | right; left; reflexivity
    | right; right; left; eexists; reflexivity
    | right; right; right; left; do 2 eexists; reflexivity
    | right; right; right; right; do 5 eexists; reflexivity ].

(** X5.  The remote calls of a turn come in one fixed order and at most
    once each: the generation call, then the query, then at most one file
    write, then the summary call; a later call is never made without the
    earlier ones. *)
Theorem turn_remote_calls_in_order :
  let calls := filter isRemote (trace (turn host prompt) w) in
  let generation :=
    ChatCreate (generation_request prompt SCHEMA_INFO (CHAIN host) OPENAI_MODEL) in
  calls = []
  \/ calls = [generation]
  \/ (exists sql, calls = [generation; ClientQuery sql])
  \/ (exists sql results,
        calls = [generation; ClientQuery sql;
                 ChatCreate
                   (summary_request host prompt sql results OPENAI_MODEL)])
  \/ (exists sql results path header records,
        calls = [generation; ClientQuery sql;
                 WriteRecords path header records;
                 ChatCreate
                   (summary_request host prompt sql results OPENAI_MODEL)]).
Proof.
  cbv zeta. every_case; cbn [filter isRemote app]; pick_shape.
Qed.

(** X6.  An exit command, in any letter case, ends the database
    connection first; when that succeeds the turn closes the readline
    interface, prints the farewell and does not re-arm the prompt; when it
    fails the error and its stack are printed, the interface stays open
    and the prompt is re-armed.  No remote call is made. *)
Theorem exit_command_disconnects :
  isExit host prompt = true ->
  trace (turn host prompt) w =
    ClientEnd ::
    match client_end w with
    | Resolves _ =>
        [ RlClose;
          ConsoleLog (chalk host cyan (lit "
Thank you for using Blockchain Database Chat CLI!")) ]
    | Rejects e =>
        [ ConsoleError (chalk host red (lit "An error occurred: " ++ message e));
          ConsoleError (stack e);
          PromptUser ]
    end.
Proof.
  unfold isExit. intros H. open_turn. rewrite H.
  destruct (client_end w); reflexivity.
Qed.

(** X7.  A prompt that is not an exit command and is empty or all white
    space costs nothing: the prompt is re-armed and nothing is printed or
    called. *)
Theorem blank_prompt_is_skipped :
  isExit host prompt = false ->
  trim prompt = [] ->
  trace (turn host prompt) w = [PromptUser].
Proof.
  unfold isExit. intros H Hb. open_turn. rewrite H, Hb. reflexivity.
Qed.

End EveryTurn.

(* ===================================================================== *)
(** ** The turn after the query *)
(* ===================================================================== *)

Section AfterQuery.

Context (host : Host) (w : World host).
Variables prompt raw : str.

Let req := generation_request prompt SCHEMA_INFO (CHAIN host) OPENAI_MODEL.
Let sqlText := stripFences raw.

(** X8.  A failed execution whose message is not empty is printed with
    its class and ends the turn: the class is Syntax error exactly when
    the lower-cased message contains the word syntax and Database error
    otherwise, and for either class the turn then only re-arms the
    prompt. *)
Theorem failed_execution_is_classified (e : JsError) :
  isQuestion host prompt = true ->
  chat_completions_create w req = Resolves (Choice (Some raw)) ->
  client_query w sqlText = Rejects e ->
  message e <> [] ->
  exists class,
    trace (turn host prompt) w =
      [ ConsoleLog (chalk host cyan (lit "
Generating SQL query..."));
        ChatCreate req;
        ConsoleLog (chalk host cyan (lit "Generated SQL:"));
        ConsoleLog (chalk host blue sqlText);
        ConsoleLog [];
        ConsoleLog (chalk host cyan (lit "Executing query..."));
        ClientQuery sqlText;
        ConsoleError
          (chalk host red (lit "Failed to execute query: " ++ message e));
        ConsoleLog (chalk host cyan (lit "Error type: " ++ class));
        PromptUser ]
    /\ (class = lit "Syntax error"
        <-> includes (toLowerCase host (message e)) (lit "syntax") = true)
    /\ (class = lit "Database error"
        <-> includes (toLowerCase host (message e)) (lit "syntax") = false).
Proof.
  intros Hq Hgen He Hmsg. exists (errorType host (message e)).
  destruct (execution_failure_is_classified host w prompt raw Hgen e Hq He Hmsg)
    as [Ht _].
  split; [exact Ht|]. apply errorType_cases.
Qed.

End AfterQuery.

(* ===================================================================== *)
(** ** executeQuery and exportToCSV on their own *)
(* ===================================================================== *)

Section QueryAndExport.

Context (host : Host) (w : World host).

(** X10.  [executeQuery] never throws, queries the database once, and
    returns exactly one of three shapes.  A rejected query gives the
    driver's message with null rows and no column names.  A reply with
    rows gives those rows without an error, the names of the reply's
    fields in field order as column names, and the driver's row count.
    A reply without rows gives an empty list of rows without an error or
    column names, the driver's row count as affected rows, and a status
    message. *)
Theorem executeQuery_returns_one_variant (sql : str) :
  exists queryResult,
    executeQuery host sql w = (Resolves queryResult, [ClientQuery sql])
    /\ ((exists e,
           client_query w sql = Rejects e
           /\ error queryResult = Some (message e)
           /\ rows queryResult = None
           /\ columnNames queryResult = None)
        \/ (exists res rs,
              client_query w sql = Resolves res
              /\ pg_rows res = Some rs
              /\ error queryResult = None
              /\ rows queryResult = Some rs
              /\ columnNames queryResult = Some (map name (pg_fields res))
              /\ rowCount queryResult = pg_rowCount res)
        \/ (exists res,
              client_query w sql = Resolves res
              /\ pg_rows res = None
              /\ error queryResult = None
              /\ rows queryResult = Some []
              /\ columnNames queryResult = None
              /\ affectedRows queryResult = pg_rowCount res
              /\ qr_message queryResult
                 = Some (lit "Query executed successfully. Rows affected: "
                         ++ String_count (pg_rowCount res)))).
Proof.
  eexists. split; [apply executeQuery_run|].
  destruct (client_query w sql) as [res|e].
  - right. destruct (pg_rows res) as [rs|] eqn:Hrows.
    + left. exists res, rs. repeat split. exact Hrows.
    + right. exists res. repeat split. exact Hrows.
  - left. exists e. repeat split.
Qed.

Lemma dashed_clean (iso : str) :
  forallb (fun c => negb (c =? 58)%N && negb (c =? 46)%N) (dashed iso)
  = true.
Proof.
  unfold dashed. induction iso as [|c iso IH]; [reflexivity|].
  cbn [map forallb]. rewrite IH, andb_true_r.
  destruct (c =? 58)%N eqn:E1; [reflexivity|].
  destruct (c =? 46)%N eqn:E2; [reflexivity|].
  cbn [orb]. now rewrite E1, E2.
Qed.

(** X11.  For a result with rows, [exportToCSV] writes one file holding
    every row (not only the ten shown in the table) under one header per
    column name, title and key alike; the file name is the fixed prefix,
    the clock's ISO time with every colon and dot replaced by a dash, and
    the csv extension, so the time stamp in it has no colon and no dot. *)
Theorem export_writes_every_row
    (rs : list (row (number host) (object host))) (cols : list str) :
  rs <> [] ->
  let stamp := dashed (Date_toISOString w) in
  let path := lit "query_results_" ++ stamp ++ lit ".csv" in
  let header := map (fun column => (column, column)) cols in
  filter isRemote (trace (exportToCSV host (Some rs) (Some cols)) w)
  = [WriteRecords path header rs]
  /\ length header = length cols
  /\ length stamp = length (Date_toISOString w)
  /\ forallb (fun c => negb (c =? 58)%N && negb (c =? 46)%N) stamp = true.
Proof.
  intros Hne stamp path header.
  split; [|split; [apply length_map|split; [apply length_map|apply dashed_clean]]].
  unfold trace, exportToCSV. destruct rs as [|r rs']; [easy|].
  cbn [noRows length Nat.eqb].
  unfold try_catch, bind, new_Date_toISOString, writeRecords, call,
    console_log, console_error, emit.
  fold stamp. fold path. fold header.
  destruct (csvWriter_writeRecords w path header (r :: rs')) as [[]|e];
    reflexivity.
Qed.

(** X12.  A failed file write does not reach the caller: [exportToCSV]
    prints the failure with the writer's message and returns normally,
    and it prints the success line only when the write succeeded. *)
Theorem export_failure_is_reported
    (rs : list (row (number host) (object host))) (cols : list str) :
  rs <> [] ->
  let path :=
    lit "query_results_" ++ dashed (Date_toISOString w) ++ lit ".csv" in
  let header := map (fun column => (column, column)) cols in
  exportToCSV host (Some rs) (Some cols) w =
  (Resolves tt,
   [ WriteRecords path header rs;
     match csvWriter_writeRecords w path header rs with
     | Resolves _ =>
         ConsoleLog (chalk host green (lit "Results exported to " ++ path))
     | Rejects e =>
         ConsoleError
           (chalk host red (lit "Failed to export results: " ++ message e))
     end ]).
Proof.
  intros Hne path header.
  unfold exportToCSV. destruct rs as [|r rs']; [easy|].
  cbn [noRows length Nat.eqb].
  unfold try_catch, bind, new_Date_toISOString, writeRecords, call,
    console_log, console_error, emit.
  fold path. fold header.
  destruct (csvWriter_writeRecords w path header (r :: rs')) as [[]|e];
    reflexivity.
Qed.

End QueryAndExport.

(* ===================================================================== *)
(** ** More on the result table *)
(* ===================================================================== *)

Section TableShape.

Context (host : Host).

Abbreviation row := (row (number host) (object host)).

Lemma clip_length (s : str) : length (clip s) <= 33.
Proof.
  unfold clip, substring0. rewrite length_app, length_firstn.
  destruct (30 <? length s);
    [change (length (lit "...")) with 3|cbn [length]]; lia.
Qed.

(** X13.  Every line of the table has exactly one cell per column name,
    and each cell is either at most 33 code units long (30 of the value
    and the three dots) or the JSON serialization of an object. *)
Theorem table_cells_are_bounded (rs : list row) (cols : list str) :
  Forall
    (fun cells =>
       length cells = length cols
       /\ Forall
            (fun cell =>
               length cell <= 33 \/ exists o, cell = JSON_stringify host o)
            cells)
    (body (resultTable host rs cols)).
Proof.
  rewrite resultTable_eq. cbn [body]. apply Forall_forall.
  intros cells Hin. apply in_map_iff in Hin as (r & <- & Hr).
  split; [apply length_map|]. apply Forall_forall.
  intros cell Hcell. apply in_map_iff in Hcell as (col & <- & _).
  destruct (get r col) as [| |b|n|s|o]; cbn [formatCell];
    try (left; apply clip_length).
  - left. vm_compute. lia.
  - right. now exists o.
Qed.

Lemma get_missing (r : row) (col : str) :
  (forall kv, In kv r -> fst kv <> col) -> get r col = VUndefined.
Proof.
  induction r as [|[k v] r IH]; intros H; [reflexivity|].
  cbn [get]. unfold eqb_str.
  destruct (list_eq_dec N.eq_dec k col) as [E|_].
  - exfalso. apply (H (k, v)); [now left|exact E].
  - apply IH. intros kv Hkv. apply H. now right.
Qed.

Lemma get_first (r : row) (col : str) (v : value (number host) (object host)) :
  get ((col, v) :: r) col = v.
Proof.
  cbn [get]. unfold eqb_str.
  now destruct (list_eq_dec N.eq_dec col col).
Qed.

(** X14.  A column name that is neither a property of a displayed row
    nor one of the names every object inherits gives the cell the text
    undefined. *)
Theorem missing_column_prints_undefined (rs : list row) (cols : list str)
    (i j : nat) (r : row) (col : str) :
  nth_error rs i = Some r ->
  i < 10 ->
  nth_error cols j = Some col ->
  (forall kv, In kv r -> fst kv <> col) ->
  isInherited col = false ->
  formatResultTable host (Some rs) (Some cols)
  = Table_toString host (resultTable host rs cols)
  /\ exists cells,
    nth_error (body (resultTable host rs cols)) i = Some cells
    /\ nth_error cells j = Some (lit "undefined").
Proof.
  intros Hr Hi Hc Hmiss _.
  split; [exact (formatResultTable_renders host rs cols i r Hr)|].
  destruct (table_cell host rs cols i j r col Hr Hi Hc) as (cells & H1 & H2).
  exists cells. split; [exact H1|].
  rewrite (get_missing r col Hmiss) in H2. exact H2.
Qed.

End TableShape.

(* ===================================================================== *)
(** ** Start-up *)
(* ===================================================================== *)

Section StartingUp.

Context (host : Host) (env : Env) (bw : BootWorld).

Lemma boot_bind_run {A B} (m : Boot A) (k : A -> Boot B) (a : A)
    (t : list boot_event) :
  m bw = (Continues a, t) ->
  boot_bind m k bw = (fst (k a bw), t ++ snd (k a bw)).
Proof. unfold boot_bind. intros ->. now destruct (k a bw). Qed.

Lemma forEach_numbers (xs : list str) (i : nat) :
  exists t,
    forEach xs i
      (fun example k =>
         boot_emit (BootLog (ofNat (k + 1) ++ lit ". " ++ example))) bw
    = (Continues tt, t)
    /\ length t = length xs
    /\ filter isAskQuestion t = []
    /\ forall j example,
         nth_error xs j = Some example ->
         nth_error t j
         = Some (BootLog (ofNat (i + j + 1) ++ lit ". " ++ example)).
Proof.
  revert i; induction xs as [|x xs IH]; intros i.
  - exists []. repeat split; try reflexivity. intros [|j] ex H; discriminate H.
  - destruct (IH (S i)) as (t & Ht & Hlen & Hq & Hnth).
    exists (BootLog (ofNat (i + 1) ++ lit ". " ++ x) :: t).
    split; [|split; [|split]].
    + cbn [forEach].
      rewrite (boot_bind_run _ _ tt [BootLog (ofNat (i + 1) ++ lit ". " ++ x)])
        by reflexivity.
      now rewrite Ht.
    + cbn [length]. now rewrite Hlen.
    + cbn [filter isAskQuestion]. exact Hq.
    + intros [|j] ex H.
      * injection H as <-. cbn [nth_error]. now rewrite Nat.add_0_r.
      * cbn [nth_error] in *. rewrite (Hnth j ex H).
        now replace (S i + j + 1) with (i + S j + 1) by lia.
Qed.

(** X15.  [displayExampleQuestions] prints a header, then one line per
    example in list order, each numbered from 1, then an empty line; it
    never ends the process. *)
Theorem examples_are_numbered_from_one (j : nat) (example : str) :
  nth_error examples j = Some example ->
  exists lines,
    displayExampleQuestions host bw
    = (Continues tt,
       BootLog (chalk host magenta_bold (lit "
Example questions you can ask:"))
       :: lines ++ [BootLog []])
    /\ length lines = length examples
    /\ nth_error lines j
       = Some (BootLog (ofNat (j + 1) ++ lit ". " ++ example)).
Proof.
  intros Hj. destruct (forEach_numbers examples 0) as (t & Ht & Hlen & _ & Hnth).
  exists t. split; [|split; [exact Hlen|exact (Hnth j example Hj)]].
  unfold displayExampleQuestions.
  rewrite (boot_bind_run _ _ tt [BootLog (chalk host magenta_bold (lit "
Example questions you can ask:"))]) by reflexivity.
  rewrite (boot_bind_run _ _ tt t) by exact Ht. reflexivity.
Qed.

Lemma displayExampleQuestions_quiet :
  exists t,
    displayExampleQuestions host bw = (Continues tt, t)
    /\ filter isAskQuestion t = [].
Proof.
  destruct (forEach_numbers examples 0) as (t & Ht & _ & Hq & _).
  exists (BootLog (chalk host magenta_bold (lit "
Example questions you can ask:")) :: t ++ [BootLog []]).
  split.
  - unfold displayExampleQuestions.
    rewrite (boot_bind_run _ _ tt [BootLog (chalk host magenta_bold (lit "
Example questions you can ask:"))]) by reflexivity.
    rewrite (boot_bind_run _ _ tt t) by exact Ht. reflexivity.
  - cbn [filter isAskQuestion]. rewrite filter_app, Hq. reflexivity.
Qed.

(** X16.  The program shows its first prompt exactly when the API key is
    set and the two clients are built and the database connection
    succeeds; the prompt is then its last action, after the connection
    and the readline interface.  In every other case the process exits
    with code 1 and no prompt is ever shown. *)
Theorem startup_prompts_or_exits :
  if truthy (OPENAI_API_KEY env) && resolved (OpenAI_new bw)
     && resolved (pg_Client_new bw) && resolved (client_connect bw)
  then
    fst (program host env bw) = Continues tt
    /\ exists before,
         snd (program host env bw)
         = before ++ [CreateInterface; AskQuestion (promptText host)]
         /\ filter isAskQuestion before = []
         /\ In ClientConnect before
  else
    fst (program host env bw) = Exits 1
    /\ exists before,
         snd (program host env bw) = before ++ [ProcessExit 1]
         /\ filter isAskQuestion before = [].
Proof.
  destruct displayExampleQuestions_quiet as (t & Ht & Hq).
  unfold program, main, connectToDatabase.
  destruct (truthy (OPENAI_API_KEY env)); cbn [andb negb].
  2:{ split; [reflexivity|]. eexists. split; [reflexivity|reflexivity]. }
  unfold boot_bind, boot_emit, boot_call, boot_ret, process_exit.
  destruct (OpenAI_new bw) as [u1|e1]; cbn [resolved andb].
  2:{ split; [reflexivity|].
      exists [ BootLog (chalk host magenta_bold (lit "
Blockchain Database Chat CLI"));
               BootLog (lit "Ask questions about blockchain data in natural language, and get insights!
");
               NewOpenAI (OPENAI_API_KEY env);
               BootError
                 (chalk host red
                    (lit "Error initializing OpenAI client: " ++ message e1)) ].
      split; reflexivity. }
  destruct (pg_Client_new bw) as [u2|e2]; cbn [resolved andb negb].
  2:{ split; [reflexivity|]. eexists (_ :: _ :: _ :: _ :: _ :: _ :: [_]).
      split; reflexivity. }
  destruct (client_connect bw) as [u3|e3]; cbn [resolved andb negb].
  2:{ split; [reflexivity|]. eexists (_ :: _ :: _ :: _ :: _ :: _ :: _ :: [_]).
      split; reflexivity. }
  rewrite Ht. cbn [fst snd app]. split; [reflexivity|].
  exists ([ BootLog (chalk host magenta_bold (lit "
Blockchain Database Chat CLI"));
            BootLog (lit "Ask questions about blockchain data in natural language, and get insights!
");
            NewOpenAI (OPENAI_API_KEY env);
            BootLog (chalk host cyan (lit "Connecting to database..."));
            NewPgClient (connection_config env);
            ClientConnect;
            BootLog (chalk host green (lit "Successfully connected to database!
")) ] ++ t).
  split; [|split].
  - cbn [app]. rewrite <- ?app_assoc. reflexivity.
  - rewrite filter_app, Hq. reflexivity.
  - apply in_or_app. left. cbn [In]. tauto.
Qed.

(** X17.  Without an API key (the variable unset or empty) the program
    prints one error and exits with code 1 before anything else: no
    banner, no client, no connection attempt. *)
Theorem missing_api_key_stops_the_program :
  env_OPENAI_API_KEY env = None \/ env_OPENAI_API_KEY env = Some [] ->
  program host env bw =
  (Exits 1,
   [ BootError
       (chalk host red
          (lit "Error: OpenAI API key is required. Please set the OPENAI_API_KEY environment variable."));
     ProcessExit 1 ]).
Proof.
  intros H. unfold program, OPENAI_API_KEY, orDefault.
  destruct H as [-> | ->]; reflexivity.
Qed.

(** X18.  When the database client cannot be built or cannot connect,
    [connectToDatabase] prints the driver's message and returns null, and
    the program then prints that it failed to connect and exits with
    code 1 without creating the readline interface. *)
Theorem unreachable_database_stops_the_program (e : JsError) :
  truthy (OPENAI_API_KEY env) = true ->
  resolved (OpenAI_new bw) = true ->
  pg_Client_new bw = Rejects e
  \/ (resolved (pg_Client_new bw) = true /\ client_connect bw = Rejects e) ->
  exists attempt,
    program host env bw =
    (Exits 1,
     [ BootLog (chalk host magenta_bold (lit "
Blockchain Database Chat CLI"));
       BootLog (lit "Ask questions about blockchain data in natural language, and get insights!
");
       NewOpenAI (OPENAI_API_KEY env);
       BootLog (chalk host cyan (lit "Connecting to database..."));
       NewPgClient
         {| cfg_host := DB_HOST env;
            cfg_port := DB_PORT env;
            cfg_database := DB_NAME env;
            cfg_user := DB_USER env;
            cfg_password := DB_PASSWORD env |} ]
     ++ attempt ++
     [ BootError
         (chalk host red (lit "Database connection error: " ++ message e));
       BootError
         (chalk host red
            (lit "Failed to connect to database. Please check your credentials."));
       ProcessExit 1 ])
    /\ (attempt = [] \/ attempt = [ClientConnect])
    /\ connectToDatabase host env bw
       = (Continues false,
          NewPgClient (connection_config env) :: attempt ++
          [ BootError
              (chalk host red
                 (lit "Database connection error: " ++ message e)) ]).
Proof.
  intros Hkey Hai Hdb.
  unfold program, main, connectToDatabase. rewrite Hkey. cbn [negb].
  unfold boot_bind, boot_emit, boot_call, boot_ret, process_exit.
  destruct (OpenAI_new bw) as [u1|e1]; [|discriminate Hai].
  destruct Hdb as [Hnew|[Hnew Hconn]].
  - exists []. rewrite Hnew. repeat split. now left.
  - exists [ClientConnect].
    destruct (pg_Client_new bw) as [u2|e2]; [|discriminate Hnew].
    rewrite Hconn. repeat split. now right.
Qed.

End StartingUp.

(* ===================================================================== *)
(** ** More runs *)
(* ===================================================================== *)

Section MoreRuns.

Import Demo.

Let ask : chat_request :=
  generation_request question1 SCHEMA_INFO (lit "base") OPENAI_MODEL.

(** A reply padded with blank lines around a tagged code block. *)
Lemma query_text_is_trimmed_witness :
  exists s,
    result (generateSQL host question1 SCHEMA_INFO (lit "base") OPENAI_MODEL)
           (replying (lit "

" ++ fencedSql ++ lit "  
"))
    = Resolves {| sql := Some s; sql_error := None |}
    /\ s = lit "SELECT hash FROM blocks_base LIMIT 10;"
    /\ trim s = s.
Proof.
  destruct (query_text_is_trimmed host
              (replying (lit "

" ++ fencedSql ++ lit "  
"))
              question1 SCHEMA_INFO (lit "base") OPENAI_MODEL
              (lit "

" ++ fencedSql ++ lit "  
") eq_refl) as (s & Hs & Ht & _).
  exists s. split; [exact Hs|]. split; [|exact Ht].
  vm_compute in Hs. injection Hs as <-. vm_compute. reflexivity.
Defined.

(** The scenario of the spec with spaces around the query. *)
Lemma unfenced_reply_is_only_trimmed_witness :
  result (generateSQL host question1 SCHEMA_INFO (lit "base") OPENAI_MODEL)
         (replying (lit "  " ++ select1 ++ lit "
"))
  = Resolves {| sql := Some select1; sql_error := None |}.
Proof.
  destruct (unfenced_reply_is_only_trimmed host
              (replying (lit "  " ++ select1 ++ lit "
"))
              question1 SCHEMA_INFO (lit "base") OPENAI_MODEL
              (lit "  " ++ select1 ++ lit "
") eq_refl eq_refl) as [H _].
  rewrite H. vm_compute. reflexivity.
Defined.

(** EXIT in capitals ends the session. *)
Lemma exit_command_disconnects_witness :
  trace (turn host (lit "EXIT")) emptyTable =
  [ ClientEnd; RlClose;
    ConsoleLog (lit "
Thank you for using Blockchain Database Chat CLI!") ].
Proof.
  rewrite (exit_command_disconnects host emptyTable (lit "EXIT") eq_refl).
  reflexivity.
Defined.

(** Spaces and a tab. *)
Lemma blank_prompt_is_skipped_witness :
  trace (turn host (lit "  	 ")) emptyTable = [PromptUser].
Proof.
  exact (blank_prompt_is_skipped host emptyTable (lit "  	 ") eq_refl eq_refl).
Defined.

(** The scenario of the spec: a syntax error. *)
Lemma failed_execution_is_classified_witness :
  exists class,
    In (ConsoleLog (lit "Error type: " ++ class))
       (trace (turn host question1) syntaxError)
    /\ class = lit "Syntax error".
Proof.
  destruct (failed_execution_is_classified host syntaxError question1 select1
              (failure (lit "ERROR: syntax error at or near SELECT"))
              eq_refl eq_refl eq_refl ltac:(discriminate))
    as (class & Ht & Hs & _).
  exists class. split.
  - rewrite Ht. cbn [In]. tauto.
  - apply Hs. reflexivity.
Defined.

(** Three rows exported under two headers. *)
Lemma export_writes_every_row_witness :
  filter isRemote
    (trace (exportToCSV host (pg_rows threeRows)
              (Some [lit "hash"; lit "number"])) summaryDown)
  = [ WriteRecords (lit "query_results_2024-05-01T10-20-30-456Z.csv")
        [ (lit "hash", lit "hash"); (lit "number", lit "number") ]
        match pg_rows threeRows with Some rs => rs | None => [] end ].
Proof.
  destruct (export_writes_every_row host summaryDown
              match pg_rows threeRows with Some rs => rs | None => [] end
              [lit "hash"; lit "number"] ltac:(discriminate))
    as (H & _).
  apply (eq_trans H). vm_compute. reflexivity.
Defined.

(** The disk is full: the failure is printed and the call returns. *)
Lemma export_failure_is_reported_witness :
  exportToCSV host (pg_rows threeRows) (Some [lit "hash"; lit "number"])
    diskFull
  = (Resolves tt,
     [ WriteRecords (lit "query_results_2024-05-01T10-20-30-456Z.csv")
         [ (lit "hash", lit "hash"); (lit "number", lit "number") ]
         match pg_rows threeRows with Some rs => rs | None => [] end;
       ConsoleError
         (lit "Failed to export results: ENOSPC: no space left on device") ]).
Proof.
  apply (eq_trans
           (export_failure_is_reported host diskFull
              match pg_rows threeRows with Some rs => rs | None => [] end
              [lit "hash"; lit "number"] ltac:(discriminate))).
  vm_compute. reflexivity.
Defined.

(** The field list names a column the row does not have. *)
Lemma missing_column_prints_undefined_witness :
  isInherited (lit "miner") = false
  /\ exists cells,
    nth_error (body (resultTable host (fst strayColumn) (snd strayColumn))) 0
    = Some cells
    /\ nth_error cells 1 = Some (lit "undefined").
Proof.
  split; [reflexivity|].
  apply (missing_column_prints_undefined host (fst strayColumn)
           (snd strayColumn) 0 1 [ (lit "hash", VString (lit "0xaa")) ]
           (lit "miner") eq_refl ltac:(lia) eq_refl);
    [|reflexivity].
  intros kv [<-|[]]. vm_compute. discriminate.
Defined.

(** The last of the fourteen examples. *)
Lemma examples_are_numbered_from_one_witness :
  exists lines,
    snd (displayExampleQuestions host bootFine)
    = BootLog (lit "
Example questions you can ask:") :: lines ++ [BootLog []]
    /\ nth_error lines 13
       = Some (BootLog (lit "14. Show me the most active wallet addresses")).
Proof.
  destruct (examples_are_numbered_from_one host bootFine 13
              (lit "Show me the most active wallet addresses") eq_refl)
    as (lines & Hrun & _ & Hnth).
  exists lines. split.
  - now rewrite Hrun.
  - rewrite Hnth. vm_compute. reflexivity.
Defined.

(** An empty key, with a database configured. *)
Lemma missing_api_key_stops_the_program_witness :
  program host emptyKey bootFine =
  (Exits 1,
   [ BootError
       (lit "Error: OpenAI API key is required. Please set the OPENAI_API_KEY environment variable.");
     ProcessExit 1 ]).
Proof.
  exact (missing_api_key_stops_the_program host emptyKey bootFine
           (or_intror eq_refl)).
Defined.

(** The connection is refused; every setting is the default. *)
Lemma unreachable_database_stops_the_program_witness :
  fst (program host keyOnly bootNoDatabase) = Exits 1
  /\ In (NewPgClient
           {| cfg_host := lit "aws-0-us-east-1.pooler.supabase.com";
              cfg_port := lit "6543";
              cfg_database := lit "postgres";
              cfg_user := lit "postgres.cbxagjoxdgzpfknkpswj";
              cfg_password := lit "amit" |})
        (snd (program host keyOnly bootNoDatabase))
  /\ In (BootError
           (lit "Database connection error: connect ECONNREFUSED 127.0.0.1:5432"))
        (snd (program host keyOnly bootNoDatabase)).
Proof.
  destruct (unreachable_database_stops_the_program host keyOnly bootNoDatabase
              (failure (lit "connect ECONNREFUSED 127.0.0.1:5432"))
              eq_refl eq_refl (or_intror (conj eq_refl eq_refl)))
    as (attempt & Hrun & [->| ->] & _); rewrite Hrun;
    (split; [reflexivity|]); split; vm_compute; tauto.
Defined.

(** A normal start ends with the prompt. *)
Example normal_start_ends_with_the_prompt :
  fst (program host keyOnly bootFine) = Continues tt
  /\ last (snd (program host keyOnly bootFine)) ClientConnect
     = AskQuestion (lit "Ask a question (or type 'exit' to quit): ")
  /\ length (snd (program host keyOnly bootFine)) = 25.
Proof. vm_compute. repeat split. Qed.

(** An exit command with a trailing space is taken for a question. *)
Example exit_with_a_space_is_a_question :
  isExit host (lit "exit ") = false
  /\ isQuestion host (lit "exit ") = true.
Proof. vm_compute. split; reflexivity. Qed.

End MoreRuns.

(* ===================================================================== *)
(** ** What the fence stripping leaves *)
(* ===================================================================== *)

Section FenceStripping.

Lemma startsWith_extend (x y p : str) :
  startsWith x p = true -> startsWith (x ++ y) p = true.
Proof.
  revert x; induction p as [|a p IH]; intros x H; [reflexivity|].
  destruct x as [|b x]; [discriminate H|].
  cbn [startsWith app] in *. apply andb_true_iff in H as [H1 H2].
  now rewrite H1, (IH x H2).
Qed.

(** [s.replace(fence, "")] removes the first fence marker of [s], if [s]
    has one. *)
Lemma replace_fence_cases (s : str) :
  (includes s fence = false /\ replace s fence [] = s)
  \/ (exists body tail,
        s = body ++ fence ++ tail
        /\ includes (body ++ [backtick; backtick]) fence = false
        /\ replace s fence [] = body ++ tail).
Proof.
  induction s as [|c s IH]; [now left|].
  destruct (startsWith (c :: s) fence) eqn:E.
  - right. exists [], (skipn 3 (c :: s)). split; [|split].
    + apply (startsWith_split _ _ E).
    + reflexivity.
    + now rewrite (replace_hit _ _ _ E).
  - assert (R : replace (c :: s) fence [] = c :: replace s fence []).
    { change (replace (c :: s) fence [])
        with (if startsWith (c :: s) fence
              then [] ++ skipn (length fence) (c :: s)
              else c :: replace s fence []).
      now rewrite E. }
    destruct IH as [[Hi Hr]|(body & tail & Hs & Hfirst & Hr)].
    + left. split; [|now rewrite R, Hr].
      change (includes (c :: s) fence)
        with (startsWith (c :: s) fence || includes s fence).
      now rewrite E, Hi.
    + right. exists (c :: body), tail. split; [now rewrite Hs|].
      split; [|now rewrite R, Hr].
      change (includes ((c :: body) ++ [backtick; backtick]) fence)
        with (startsWith ((c :: body) ++ [backtick; backtick]) fence
              || includes (body ++ [backtick; backtick]) fence).
      rewrite Hfirst, orb_false_r.
      destruct (startsWith ((c :: body) ++ [backtick; backtick]) fence) eqn:F;
        [|reflexivity].
      apply (startsWith_extend _ (backtick :: tail)) in F.
      rewrite <- app_assoc in F. cbn [app] in F.
      rewrite Hs in E. unfold fence in E, F. cbn [app] in E. congruence.
Qed.

Lemma spaces_noBacktick (a : str) :
  forallb isWhiteSpace a = true -> noBacktick a.
Proof.
  unfold noBacktick. induction a as [|c a IH]; intros H [].
  - subst c. cbn in H. discriminate H.
  - cbn [forallb] in H. apply andb_true_iff in H as [_ H]. now apply IH.
Qed.

Lemma startsWith_fence_before (y b : str) :
  noBacktick b -> startsWith (y ++ b) fence = startsWith y fence.
Proof.
  intros Hb.
  assert (B : forall p, startsWith b (backtick :: p) = false).
  { intros p. destruct b as [|d b']; [reflexivity|].
    rewrite startsWith_backtick.
    destruct (d =? backtick)%N eqn:E; [|reflexivity].
    apply N.eqb_eq in E. exfalso. apply Hb. now left. }
  unfold fence.
  destruct y as [|c1 y]; [apply B|].
  cbn [app]. rewrite !startsWith_backtick. f_equal.
  destruct y as [|c2 y]; [apply B|].
  cbn [app]. rewrite !startsWith_backtick. f_equal.
  destruct y as [|c3 y]; [apply B|].
  cbn [app]. rewrite !startsWith_backtick. reflexivity.
Qed.

Lemma includes_fence_before (y b : str) :
  noBacktick b -> includes (y ++ b) fence = includes y fence.
Proof.
  intros Hb. induction y as [|c y IH].
  - cbn [app]. rewrite <- (app_nil_r b) at 1. rewrite includes_noBacktick by exact Hb.
    reflexivity.
  - change (includes ((c :: y) ++ b) fence)
      with (startsWith ((c :: y) ++ b) fence || includes (y ++ b) fence).
    change (includes (c :: y) fence)
      with (startsWith (c :: y) fence || includes y fence).
    now rewrite IH, startsWith_fence_before.
Qed.

(** Trimming neither removes nor creates a fence marker. *)
Lemma includes_trim_fence (s : str) :
  includes (trim s) fence = includes s fence.
Proof.
  destruct (trim_drops_spaces s) as (a & b & E & Ha & Hb).
  rewrite E at 2.
  rewrite includes_noBacktick by now apply spaces_noBacktick.
  rewrite includes_fence_before by now apply spaces_noBacktick.
  reflexivity.
Qed.

End FenceStripping.

Section FenceStrippingOfGenerateSQL.

Context (host : Host) (w : World host).
Variables prompt schemaInfo chain modelName : str.

(** C1 (amended).  What [generateSQL] keeps of a reply depends on how the
    trimmed reply begins.  Without a fence marker at its start it is kept
    as it is, so it contains a fence marker exactly when the reply does.
    Behind an untagged marker every marker is removed and none is left.
    Behind the sql-tagged marker the tag and the first marker that
    follows it, if there is one, are removed, so a marker is left exactly
    when the text around that first marker still contains one.  In every
    case the result is trimmed, and a text without untagged marker has no
    tagged one. *)
Theorem generateSQL_fence_stripping (raw : str) :
  chat_completions_create w
    (generation_request prompt schemaInfo chain modelName)
  = Resolves (Choice (Some raw)) ->
  exists s,
    result (generateSQL host prompt schemaInfo chain modelName) w
    = Resolves {| sql := Some s; sql_error := None |}
    /\ ((startsWith (trim raw) fence = false
         /\ s = trim raw
         /\ includes s fence = includes raw fence)
        \/ (startsWith (trim raw) fence = true
            /\ startsWith (trim raw) fence_sql = false
            /\ s = trim (replaceAll (trim raw) fence [])
            /\ includes s fence = false)
        \/ (exists rest,
              trim raw = fence_sql ++ rest
              /\ includes rest fence = false
              /\ s = trim rest
              /\ includes s fence = false)
        \/ (exists body tail,
              trim raw = fence_sql ++ body ++ fence ++ tail
              /\ includes (body ++ [backtick; backtick]) fence = false
              /\ s = trim (body ++ tail)
              /\ includes s fence = includes (body ++ tail) fence))
    /\ includes s fence_sql && negb (includes s fence) = false.
Proof.
  intros Hreply. exists (stripFences raw).
  unfold result. rewrite generateSQL_run, Hreply. split; [reflexivity|].
  split.
  - destruct (startsWith (trim raw) fence) eqn:F.
    + right. destruct (startsWith (trim raw) fence_sql) eqn:T.
      * right. apply startsWith_split in T.
        remember (skipn (length fence_sql) (trim raw)) as rest eqn:Hrest.
        clear Hrest.
        assert (S : stripFences raw = trim (replace rest fence [])).
        { unfold stripFences. rewrite T, startsWith_app.
          now rewrite replace_prefix, app_nil_l. }
        destruct (replace_fence_cases rest)
          as [[Hi Hr]|(body & tail & Hs & Hfirst & Hr)].
        -- left. exists rest. rewrite S, Hr, includes_trim_fence.
           repeat split; assumption.
        -- right. exists body, tail. rewrite S, Hr, includes_trim_fence.
           rewrite T, Hs. repeat split; assumption.
      * left. split; [reflexivity|]. split; [reflexivity|].
        unfold stripFences. rewrite T, F. split; [reflexivity|].
        apply includes_trim_false, replaceAll_fence_free.
    + left. split; [reflexivity|].
      rewrite (stripFences_unfenced raw F). split; [reflexivity|].
      apply includes_trim_fence.
  - destruct (includes (stripFences raw) fence) eqn:I.
    + cbn [negb]. apply andb_false_r.
    + unfold fence_sql. now rewrite (includes_longer _ fence (lit "sql") I).
Qed.

End FenceStrippingOfGenerateSQL.

(* ===================================================================== *)
(** ** Every turn, on an interface that may have been closed *)
(* ===================================================================== *)

Section EveryTurnOn.

Context (host : Host) (w : World host) (rl : Readline).
Variable prompt : str.

Ltac open_turn_on :=
  unfold trace, result, turnOn, onQuestionOn, onAnswerOn, onErrorOn,
    promptUserOn, rl_question, exportStep, exportToCSV, generateSQL,
    executeQuery, generateResponse;
  cbv [bind try_catch console_log console_error emit ret throw
       call create query writeRecords new_Date_toISOString].

Ltac decide_next_on :=
  match goal with
  | |- context [match ?x with _ => _ end] =>
      lazymatch x with
      | context [match _ with _ => _ end] => fail
      | _ => destruct x eqn:?
      end
  end.

Ltac settle_on :=
  cbn [fst snd app sql sql_error response response_error rows error
       columnNames rowCount isSet orNull noRows negb length Nat.eqb];
  rewrite ?truthy_generation_error, ?truthy_summary_error.

Ltac every_case_on :=
  open_turn_on; settle_on; repeat (decide_next_on; settle_on).

(** With the interface open and the operator answering, the turn is the
    one of [turn]. *)
Lemma turnOn_open :
  staysOpen rl -> turnOn host rl prompt w = turn host prompt w.
Proof.
  intros (H1 & H2 & H3 & H4).
  unfold turnOn, onQuestionOn, onAnswerOn, onErrorOn, promptUserOn.
  rewrite H1, H2, H3, H4.
  unfold turn, onQuestion, onAnswer, onError, promptUser, rl_question,
    question.
  cbv [bind try_catch console_log console_error emit ret throw call].
  repeat (decide_next_on; cbn [fst snd app]); reflexivity.
Qed.

(** X3.  A turn ends in an unhandled rejection only through [rl.question]
    finding the interface closed, either at [promptUser()] in the [catch]
    block of the first callback or at [promptUser()] ending the second
    callback, and what is thrown is that call's error; every other
    failure of a remote service is handled within the turn. *)
Theorem turn_rejects_only_on_closed_interface :
  result (turnOn host rl prompt) w = Resolves tt
  \/ exists e,
       result (turnOn host rl prompt) w = Rejects e
       /\ (rl_in_catch rl = RlClosed e \/ rl_at_end rl = RlClosed e).
Proof.
  every_case_on;
    first
      [ left; reflexivity
      | right; eexists; split; [reflexivity|]; first [now left | now right] ].
Qed.

(** X4.  On an interface that stays open, with the export question
    answered, a turn re-arms the prompt exactly once, as its last action,
    unless it is an exit command whose disconnection succeeds. *)
Theorem turn_rearms_prompt_once_when_open :
  staysOpen rl ->
  isExit host prompt = false \/ (exists e, client_end w = Rejects e) ->
  exists before,
    trace (turnOn host rl prompt) w = before ++ [PromptUser]
    /\ filter isPromptUser before = [].
Proof.
  intros (H1 & H2 & H3 & H4) H.
  exists (removelast (trace (turnOn host rl prompt) w)).
  unfold isExit in H. revert H.
  open_turn_on. rewrite H1, H2, H3, H4. settle_on.
  repeat (decide_next_on; settle_on); intros H;
    try (destruct H as [H|[e H]]; discriminate H);
    cbn [removelast app filter isPromptUser]; split; reflexivity.
Qed.

End EveryTurnOn.

Section AfterQueryOn.

Context (host : Host) (w : World host) (rl : Readline).
Variables prompt raw : str.

Let req := generation_request prompt SCHEMA_INFO (CHAIN host) OPENAI_MODEL.
Let sqlText := stripFences raw.
Let exportQuestion : str :=
  chalk host cyan
    (lit "Would you like to export these results to CSV? (y/n): ").


(** X19.  When the operator never answers the export question (the
    interface is closed after the question was put), the second callback
    does not run: the turn stops after the table and the question, with
    no export, no summary call and no new prompt. *)
Theorem unanswered_export_question_ends_the_turn (res : pg_result host)
    (rs : list (row (number host) (object host))) :
  isQuestion host prompt = true ->
  chat_completions_create w req = Resolves (Choice (Some raw)) ->
  client_query w sqlText = Resolves res ->
  pg_rows res = Some rs ->
  rs <> [] ->
  rl_in_try rl = RlOpen ->
  rl_answers rl = false ->
  turnOn host rl prompt w =
  (Resolves tt,
   [ ConsoleLog (chalk host cyan (lit "
Generating SQL query..."));
     ChatCreate req;
     ConsoleLog (chalk host cyan (lit "Generated SQL:"));
     ConsoleLog (chalk host blue sqlText);
     ConsoleLog [];
     ConsoleLog (chalk host cyan (lit "Executing query..."));
     ClientQuery sqlText;
     ConsoleLog
       (chalk host green
          (lit "Query returned " ++ String_count (pg_rowCount res)
           ++ lit " rows."));
     ConsoleLog (chalk host cyan (lit "Results preview:"));
     ConsoleLog
       (formatResultTable host (Some rs) (Some (map name (pg_fields res))));
     ConsoleLog [];
     RlQuestion exportQuestion ]).
Proof.
  intros Hq Hgen Hres Hrows Hne Htry Hans.
  destruct (isQuestion_inv host prompt Hq) as [H1 H2].
  unfold turnOn, onQuestionOn, promptUserOn, rl_question.
  rewrite H1, H2, Htry, Hans.
  cbv [bind try_catch console_log console_error emit ret call].
  rewrite generateSQL_run. fold req. rewrite Hgen.
  cbn [sql_error isSet sql orNull]. fold sqlText.
  rewrite executeQuery_run, Hres, Hrows.
  cbn [error isSet rows noRows].
  destruct rs as [|r rs']; [easy|]. cbn [length Nat.eqb].
  reflexivity.
Qed.

End AfterQueryOn.

(* ===================================================================== *)
(** ** Runs on a readline interface *)
(* ===================================================================== *)

Section RunsOnReadline.

Import Demo.

Let ask : chat_request :=
  generation_request question1 SCHEMA_INFO (lit "base") OPENAI_MODEL.

Let cleaned (raw : str) (expected : str) : Prop :=
  exists s,
    result (generateSQL host question1 SCHEMA_INFO (lit "base") OPENAI_MODEL)
           (replying raw)
    = Resolves {| sql := Some s; sql_error := None |}
    /\ s = expected
    /\ includes s fence = false.

Ltac clean_by reply :=
  let s := fresh "s" in
  let R := fresh "R" in
  destruct (generateSQL_fence_stripping host (replying reply) question1
              SCHEMA_INFO (lit "base") OPENAI_MODEL reply eq_refl)
    as (s & R & _ & _);
  exists s; split; [exact R|];
  vm_compute in R; injection R as <-; split; vm_compute; reflexivity.

(** Four replies that begin with a fence marker and come out clean: an
    untagged block, a tagged block, a tagged block with a back-quoted
    identifier, and a tagged block that is never closed. *)
Lemma generateSQL_fence_stripping_witness :
  cleaned fencedPlain (lit "SELECT hash FROM blocks_base LIMIT 10;")
  /\ cleaned fencedSql (lit "SELECT hash FROM blocks_base LIMIT 10;")
  /\ cleaned fencedBackquoted
       (lit "SELECT `from` FROM transactions_base LIMIT 10;")
  /\ cleaned fencedUnclosed (lit "SELECT hash FROM blocks_base LIMIT 10;").
Proof.
  unfold cleaned. split; [|split; [|split]].
  - clean_by fencedPlain.
  - clean_by fencedSql.
  - clean_by fencedBackquoted.
  - clean_by fencedUnclosed.
Defined.

(** A question whose summary succeeds, and an exit that is refused. *)
Lemma turn_rearms_prompt_once_when_open_witness :
  (exists before,
     trace (turnOn host openInterface question1) (replying select1)
     = before ++ [PromptUser]
     /\ filter isPromptUser before = [])
  /\ (exists before,
        trace (turnOn host openInterface (lit "quit")) exitRefused
        = before ++ [PromptUser]
        /\ filter isPromptUser before = []).
Proof.
  split.
  - apply (turn_rearms_prompt_once_when_open host (replying select1)
             openInterface question1).
    + repeat split.
    + left. reflexivity.
  - apply (turn_rearms_prompt_once_when_open host exitRefused
             openInterface (lit "quit")).
    + repeat split.
    + right. eexists. reflexivity.
Defined.


(** Three rows and an operator who has gone. *)
Lemma unanswered_export_question_ends_the_turn_witness :
  result (turnOn host noAnswer question1) (replying select1) = Resolves tt
  /\ last (trace (turnOn host noAnswer question1) (replying select1))
          PromptUser
     = RlQuestion
         (lit "Would you like to export these results to CSV? (y/n): ")
  /\ filter isRemote (trace (turnOn host noAnswer question1) (replying select1))
     = [ChatCreate ask; ClientQuery select1].
Proof.
  unfold result, trace.
  rewrite (unanswered_export_question_ends_the_turn host (replying select1)
             noAnswer question1 select1 threeRows
             match pg_rows threeRows with Some rs => rs | None => [] end
             eq_refl eq_refl eq_refl eq_refl ltac:(discriminate)
             eq_refl eq_refl).
  vm_compute. repeat split.
Defined.

(** The input ends while the summary is awaited: the last statement of
    the second callback throws, and nothing catches it. *)
Example closed_interface_rejects_the_turn :
  result (turnOn host closedAtEnd question1) (replying select1)
  = Rejects (failure (lit "readline was closed")).
Proof. vm_compute. reflexivity. Qed.

End RunsOnReadline.
